(** * Draggify: the drag and drop composable [useDragDrop]

    A shallow embedding of [src/composables/drag.ts].  The closure variables
    of [useDragDrop] become the fields of one record, the three pointer
    handlers become computations in a small state-and-exception monad, and
    the browser delivers events to whichever handlers are registered.

    What the embedding keeps of the DOM: of an element, its [id] attribute;
    of the ghost, whether it has been appended to [document.body] (so that
    [removeChild] can fail); of [window], which of the three listeners are
    registered.  Style writes and [preventDefault] have no effect on the
    data and are left out. *)

From Stdlib Require Import ZArith List String Bool Lia.
From stdpp Require Import base list.
Import ListNotations.

Local Open Scope Z_scope.

(** ** JavaScript arrays *)

Module JsArray.

(** [arr[i]]: [undefined] ([None]) outside [0 .. length-1]. *)
Definition get {A} (arr : list A) (i : Z) : option A :=
  if i <? 0 then None else arr !! Z.to_nat i.

(** [arr[i] = x] for an index that exists. *)
Definition set {A} (arr : list A) (i : Z) (x : A) : list A :=
  if i <? 0 then arr else <[Z.to_nat i := x]> arr.

(** [arr.findIndex(p)]: position of the first match, [-1] without one. *)
Fixpoint findIndexFrom {A} (p : A -> bool) (arr : list A) (i : Z) : Z :=
  match arr with
  | [] => -1
  | x :: rest => if p x then i else findIndexFrom p rest (i + 1)
  end.

Definition findIndex {A} (p : A -> bool) (arr : list A) : Z :=
  findIndexFrom p arr 0.

(** [arr.find(p)]. *)
Definition find {A} (p : A -> bool) (arr : list A) : option A :=
  List.find p arr.

(** The clamping of [start] that [splice] performs. *)
Definition relativeStart (len start : Z) : Z :=
  if start <? 0 then Z.max (len + start) 0 else Z.min start len.

(** [arr.splice(start, deleteCount, ...items)], as the array it leaves. *)
Definition splice {A} (arr : list A) (start deleteCount : Z) (items : list A)
  : list A :=
  let len := Z.of_nat (length arr) in
  let s := relativeStart len start in
  let d := Z.min (Z.max deleteCount 0) (len - s) in
  take (Z.to_nat s) arr ++ items ++ drop (Z.to_nat (s + d)) arr.

End JsArray.

(** ** Items *)

(** [T extends IDType]: an item has an [id] that prints to a string.  Items
    are plain data, which [JSON.parse(JSON.stringify(x))] copies faithfully. *)
Class IDType (T : Type) := {
  id_toString : T -> string;
  json_roundtrip : T -> T;
  json_roundtrip_plain : forall x : T, json_roundtrip x = x
}.

(** ** The DOM, as far as the composable looks at it *)

(** An element with class [draggify]. *)
Record Element := { getAttribute_id : option string }.

(** The clone that follows the pointer. *)
Record Ghost := { ghost_id : option string; inBody : bool }.

Definition cloneNode (el : Element) : Ghost :=
  {| ghost_id := getAttribute_id el; inBody := false |}.

(** [e.target]: not an [HTMLElement], or one whose [closest('.draggify')]
    is the given element, if any. *)
Inductive EventTarget :=
| NotHTMLElement
| HTMLElement (closest : option Element).

Inductive JsError := TypeError | SyntaxError | NotFoundError.

(** [interface Preview { list: number; target: number }] *)
Module Preview.
Record t := { list : Z; target : Z }.
End Preview.

(** ** The closure of [useDragDrop] *)

Section Closure.

Context {T : Type} `{IDType T}.

Record State := {
  lists : list (list T);
  startingLists : list (list T);
  elem : option Element;
  dragging : option Ghost;
  startX : Z;
  startY : Z;
  originalIndex : Z;
  originalListIndex : Z;
  targetListIndex : Z;
  targetIndex : Z;
  originalItem : option T;
  addedPreview : option Preview.t;
  (* listeners registered on [window] *)
  onMousedown : bool;
  onMousemove : bool;
  onMouseup : bool
}.

Definition set_lists v s :=
  {| lists := v; startingLists := startingLists s; elem := elem s;
     dragging := dragging s; startX := startX s; startY := startY s;
     originalIndex := originalIndex s;
     originalListIndex := originalListIndex s;
     targetListIndex := targetListIndex s; targetIndex := targetIndex s;
     originalItem := originalItem s; addedPreview := addedPreview s;
     onMousedown := onMousedown s; onMousemove := onMousemove s;
     onMouseup := onMouseup s |}.

Definition set_startingLists v s :=
  {| lists := lists s; startingLists := v; elem := elem s;
     dragging := dragging s; startX := startX s; startY := startY s;
     originalIndex := originalIndex s;
     originalListIndex := originalListIndex s;
     targetListIndex := targetListIndex s; targetIndex := targetIndex s;
     originalItem := originalItem s; addedPreview := addedPreview s;
     onMousedown := onMousedown s; onMousemove := onMousemove s;
     onMouseup := onMouseup s |}.

Definition set_elem v s :=
  {| lists := lists s; startingLists := startingLists s; elem := v;
     dragging := dragging s; startX := startX s; startY := startY s;
     originalIndex := originalIndex s;
     originalListIndex := originalListIndex s;
     targetListIndex := targetListIndex s; targetIndex := targetIndex s;
     originalItem := originalItem s; addedPreview := addedPreview s;
     onMousedown := onMousedown s; onMousemove := onMousemove s;
     onMouseup := onMouseup s |}.

Definition set_dragging v s :=
  {| lists := lists s; startingLists := startingLists s; elem := elem s;
     dragging := v; startX := startX s; startY := startY s;
     originalIndex := originalIndex s;
     originalListIndex := originalListIndex s;
     targetListIndex := targetListIndex s; targetIndex := targetIndex s;
     originalItem := originalItem s; addedPreview := addedPreview s;
     onMousedown := onMousedown s; onMousemove := onMousemove s;
     onMouseup := onMouseup s |}.

Definition set_start x y s :=
  {| lists := lists s; startingLists := startingLists s; elem := elem s;
     dragging := dragging s; startX := x; startY := y;
     originalIndex := originalIndex s;
     originalListIndex := originalListIndex s;
     targetListIndex := targetListIndex s; targetIndex := targetIndex s;
     originalItem := originalItem s; addedPreview := addedPreview s;
     onMousedown := onMousedown s; onMousemove := onMousemove s;
     onMouseup := onMouseup s |}.

Definition set_original i li s :=
  {| lists := lists s; startingLists := startingLists s; elem := elem s;
     dragging := dragging s; startX := startX s; startY := startY s;
     originalIndex := i; originalListIndex := li;
     targetListIndex := targetListIndex s; targetIndex := targetIndex s;
     originalItem := originalItem s; addedPreview := addedPreview s;
     onMousedown := onMousedown s; onMousemove := onMousemove s;
     onMouseup := onMouseup s |}.

Definition set_target i li s :=
  {| lists := lists s; startingLists := startingLists s; elem := elem s;
     dragging := dragging s; startX := startX s; startY := startY s;
     originalIndex := originalIndex s;
     originalListIndex := originalListIndex s;
     targetListIndex := li; targetIndex := i;
     originalItem := originalItem s; addedPreview := addedPreview s;
     onMousedown := onMousedown s; onMousemove := onMousemove s;
     onMouseup := onMouseup s |}.

Definition set_originalItem v s :=
  {| lists := lists s; startingLists := startingLists s; elem := elem s;
     dragging := dragging s; startX := startX s; startY := startY s;
     originalIndex := originalIndex s;
     originalListIndex := originalListIndex s;
     targetListIndex := targetListIndex s; targetIndex := targetIndex s;
     originalItem := v; addedPreview := addedPreview s;
     onMousedown := onMousedown s; onMousemove := onMousemove s;
     onMouseup := onMouseup s |}.

Definition set_addedPreview v s :=
  {| lists := lists s; startingLists := startingLists s; elem := elem s;
     dragging := dragging s; startX := startX s; startY := startY s;
     originalIndex := originalIndex s;
     originalListIndex := originalListIndex s;
     targetListIndex := targetListIndex s; targetIndex := targetIndex s;
     originalItem := originalItem s; addedPreview := v;
     onMousedown := onMousedown s; onMousemove := onMousemove s;
     onMouseup := onMouseup s |}.

Definition set_listeners down move up s :=
  {| lists := lists s; startingLists := startingLists s; elem := elem s;
     dragging := dragging s; startX := startX s; startY := startY s;
     originalIndex := originalIndex s;
     originalListIndex := originalListIndex s;
     targetListIndex := targetListIndex s; targetIndex := targetIndex s;
     originalItem := originalItem s; addedPreview := addedPreview s;
     onMousedown := down; onMousemove := move; onMouseup := up |}.

(** ** Handlers run to completion or throw *)

Inductive Completion (A : Type) :=
| Normal (a : A) (s : State)
| Throw (e : JsError) (s : State).
Arguments Normal {A} a s.
Arguments Throw {A} e s.



Definition Handler (A : Type) := State -> Completion A.

Definition ret {A} (a : A) : Handler A := fun s => Normal a s.

Definition bind {A B} (m : Handler A) (k : A -> Handler B) : Handler B :=
  fun s => match m s with
           | Normal a s' => k a s'
           | Throw e s' => Throw e s'
           end.

Definition throw {A} (e : JsError) : Handler A := fun s => Throw e s.
Definition read {A} (f : State -> A) : Handler A := fun s => Normal (f s) s.
Definition write (f : State -> State) : Handler unit :=
  fun s => Normal tt (f s).

(** Reading a property of [undefined] is a [TypeError]. *)
Definition defined {A} (o : option A) : Handler A :=
  match o with Some a => ret a | None => throw TypeError end.

(** The state a handler leaves behind, thrown or not. *)
Definition after {A} (c : Completion A) : State :=
  match c with Normal _ s => s | Throw _ s => s end.

End Closure.

Arguments State T : clear implicits.
Arguments Completion T A : clear implicits.
Arguments Handler T A : clear implicits.
Arguments Normal {T A} a s.
Arguments Throw {T A} e s.

Declare Scope handler_scope.
Delimit Scope handler_scope with handler.
Notation "x <- m ;; k" := (bind m (fun x => k))
  (at level 20, m at level 99, k at level 200, only parsing) : handler_scope.
Notation "m ;; k" := (bind m (fun _ => k))
  (at level 100, k at level 200, only parsing, right associativity)
  : handler_scope.

(** ** The handlers *)

Section Handlers.

Context {T : Type} `{IDType T}.

Local Open Scope handler_scope.

(** [f.id.toString() === el.getAttribute('id')]; an absent attribute is
    [null], which no string equals. *)
Definition sameId (id : option string) (f : T) : bool :=
  match id with
  | Some s => String.eqb (id_toString f) s
  | None => false
  end.

(** [!target.getAttribute('id')]: [null] and the empty string. *)
Definition noId (id : option string) : bool :=
  match id with
  | Some s => String.eqb s EmptyString
  | None => true
  end.

(** [JSON.parse(JSON.stringify(v))] of an array of arrays of items. *)
Definition jsonCopy (v : list (list T)) : list (list T) :=
  map (map json_roundtrip) v.

(** [JSON.parse(JSON.stringify(v))] of one array slot: [stringify] of
    [undefined] is [undefined], which [parse] rejects. *)
Definition jsonCopyItem (v : option T) : Handler T T :=
  match v with
  | Some x => ret (json_roundtrip x)
  | None => throw SyntaxError
  end.

(** [lists.value[li].splice(start, deleteCount, ...items)] *)
Definition spliceList (li start deleteCount : Z) (items : list T)
  : Handler T unit :=
  ls <- read lists ;;
  host <- defined (JsArray.get ls li) ;;
  write (set_lists (JsArray.set ls li
                      (JsArray.splice host start deleteCount items))).

(** The loop of [mousedown] over [Object.entries(lists.value)]:
    [originalIndex] is overwritten by every list that is scanned. *)
Fixpoint scanOriginal (id : option string) (entries : list (list T)) (i : Z)
  (s : State T) : State T :=
  match entries with
  | [] => s
  | l :: rest =>
      let s' := set_original (JsArray.findIndex (sameId id) l)
                             (originalListIndex s) s in
      if originalIndex s' =? -1
      then scanOriginal id rest (i + 1) s'
      else set_original (originalIndex s') i s'
  end.

(** The loop of [handleMouseMove]: [break] without an id, [continue] past a
    list without the item, assign both target indices at the first hit. *)
Fixpoint scanTarget (id : option string) (entries : list (list T)) (i : Z)
  (s : State T) : State T :=
  match entries with
  | [] => s
  | l :: rest =>
      if noId id then s
      else match JsArray.find (sameId id) l with
           | None => scanTarget id rest (i + 1) s
           | Some _ => set_target (JsArray.findIndex (sameId id) l) i s
           end
  end.

Definition appendChild (s : State T) : State T :=
  set_dragging
    (option_map (fun g => {| ghost_id := ghost_id g; inBody := true |})
                (dragging s)) s.

(** [document.body.removeChild(g)] throws unless [g] is a child. *)
Definition removeChild (g : Ghost) : Handler T unit :=
  if inBody g then ret tt else throw NotFoundError.

Definition cleanUp (s : State T) : State T :=
  set_originalItem None
    (set_target (-1) (-1)
       (set_addedPreview None
          (set_original (-1) (-1) s))).

(** The anonymous listener registered by [onMounted]. *)
Definition mousedown (tgt : EventTarget) (pageX pageY : Z) : Handler T unit :=
  match tgt with
  | NotHTMLElement => ret tt
  | HTMLElement closest =>
      write (set_elem closest) ;;
      match closest with
      | None => ret tt
      | Some el =>
          (* a clone is an object: [if (!dragging) return] never fires *)
          write (set_dragging (Some (cloneNode el))) ;;
          entries <- read lists ;;
          write (scanOriginal (getAttribute_id el) entries 0) ;;
          item <- read originalItem ;;
          match item with
          | None =>
              ls <- read lists ;;
              li <- read originalListIndex ;;
              i <- read originalIndex ;;
              host <- defined (JsArray.get ls li) ;;
              copy <- jsonCopyItem (JsArray.get host i) ;;
              write (set_originalItem (Some copy)) ;;
              spliceList li i 1 []
          | Some _ => ret tt
          end ;;
          write appendChild ;;
          write (set_start pageX pageY) ;;
          write (fun s => set_listeners (onMousedown s) true true s)
      end
  end.

Definition handleMouseMove (hit : option Element) (pageX pageY : Z)
  : Handler T unit :=
  g <- read dragging ;;
  match g with
  | None => ret tt
  | Some _ =>
      match hit with
      | None => write (fun s => set_target (-1) (targetListIndex s) s)
      | Some tgt =>
          entries <- read lists ;;
          write (scanTarget (getAttribute_id tgt) entries 0) ;;
          preview <- read addedPreview ;;
          match preview with
          | Some p => spliceList (Preview.list p) (Preview.target p) 1 []
          | None => ret tt
          end ;;
          item <- read originalItem ;;
          tl <- read targetListIndex ;;
          ti <- read targetIndex ;;
          match item with
          | Some it => spliceList tl ti 0 [it]
          | None => ret tt
          end ;;
          write (set_addedPreview
                   (Some {| Preview.list := tl; Preview.target := ti |}))
      end
  end.

Definition handleMouseUp : Handler T unit :=
  g <- read dragging ;;
  el <- read elem ;;
  match g, el with
  | Some ghost, Some _ =>
      removeChild ghost ;;
      write (set_dragging None) ;;
      ti <- read targetIndex ;;
      (if ti =? -1
       then write (fun s => set_lists (jsonCopy (startingLists s)) s)
       else write (fun s => set_startingLists (jsonCopy (lists s)) s)) ;;
      write cleanUp ;;
      write (fun s => set_listeners (onMousedown s) false false s)
  | _, _ => ret tt
  end.

(** The state [useDragDrop(items)] sets up before any hook has run. *)
Definition useDragDrop (items : list (list T)) : State T :=
  {| lists := items; startingLists := jsonCopy items;
     elem := None; dragging := None; startX := 0; startY := 0;
     originalIndex := -1; originalListIndex := -1;
     targetListIndex := -1; targetIndex := -1;
     originalItem := None; addedPreview := None;
     onMousedown := false; onMousemove := false; onMouseup := false |}.

(** ** Events *)

(** What the runtime and the browser can do to the composable.  A mouse
    move carries the [closest('.draggify')] of the element under the
    pointer. *)
Inductive Event :=
| Mounted
| Unmounted
| MouseDown (tgt : EventTarget) (pageX pageY : Z)
| MouseMove (hit : option Element) (pageX pageY : Z)
| MouseUp.

(** An event reaches a handler only while that handler is registered. *)
Definition dispatch (ev : Event) : Handler T unit :=
  match ev with
  | Mounted => write (fun s => set_listeners true (onMousemove s) (onMouseup s) s)
  | Unmounted => write (fun s => set_listeners (onMousedown s) false false s)
  | MouseDown tgt x y =>
      on <- read onMousedown ;;
      if on then mousedown tgt x y else ret tt
  | MouseMove hit x y =>
      on <- read onMousemove ;;
      if on then handleMouseMove hit x y else ret tt
  | MouseUp =>
      on <- read onMouseup ;;
      if on then handleMouseUp else ret tt
  end.

(** An exception thrown by a listener is reported and the event loop goes
    on with the state the listener left. *)
Definition step (s : State T) (ev : Event) : State T := after (dispatch ev s).

Definition run (evs : list Event) (s : State T) : State T :=
  fold_left step evs s.

End Handlers.

Arguments mousedown : simpl never.
Arguments handleMouseMove : simpl never.
Arguments handleMouseUp : simpl never.

(** ** A concrete item type for the scenarios *)

Module Card.
Record t := { id : string }.
End Card.

#[export] Instance Card_IDType : IDType Card.t :=
  {| id_toString := Card.id;
     json_roundtrip := fun c => c;
     json_roundtrip_plain := fun _ => eq_refl |}.

Module Scenario.
Local Open Scope string_scope.

Definition A : Card.t := {| Card.id := "A" |}.
Definition B : Card.t := {| Card.id := "B" |}.
Definition C : Card.t := {| Card.id := "C" |}.
Definition D : Card.t := {| Card.id := "D" |}.
Definition E : Card.t := {| Card.id := "E" |}.

(** The rendered element of an item, and two elements that are not. *)
Definition el (c : Card.t) : Element := {| getAttribute_id := Some (Card.id c) |}.
Definition unbound : Element := {| getAttribute_id := None |}.
Definition foreign : Element := {| getAttribute_id := Some "Z" |}.

Definition down (c : Card.t) : Event := MouseDown (HTMLElement (Some (el c))) 0 0.
Definition over (c : Card.t) : Event := MouseMove (Some (el c)) 0 0.
Definition overNothing : Event := MouseMove None 0 0.
Definition overElement (e : Element) : Event := MouseMove (Some e) 0 0.

(** A mounted composable over [items]. *)
Definition mounted (items : list (list Card.t)) : State Card.t :=
  run [Mounted] (useDragDrop items).

(** The two collections of the scenarios. *)
Definition board : list (list Card.t) := [[A; B; C]; [D; E]].
Definition column : list (list Card.t) := [[A; B; C]].

(** [A] captured from the board; then hovering [D]; then off every
    element. *)
Definition captured : State Card.t := run [down A] (mounted board).
Definition hoveringD : State Card.t := run [over D] captured.
Definition offTarget : State Card.t := run [overNothing] hoveringD.

(** A whole gesture on a mounted composable: press on [c], hover [h]
    for [n] pointer-moves, release. *)
Definition dragOnto (c h : Card.t) (n : nat) (items : list (list Card.t))
  : State Card.t :=
  run (down c :: repeat (over h) n ++ [MouseUp]) (mounted items).

(** The ghost of [A] once it is in the body. *)
Definition ghostA : Ghost := {| ghost_id := Some "A"; inBody := true |}.

(** Frames of a session over the board: over [D], off every element,
    over [B]; and one that ends over [E]. *)
Definition wandering : list (option Element * Z * Z) :=
  [(Some (el D), 0, 0); (None, 0, 0); (Some (el B), 0, 0)].
Definition settling : list (option Element * Z * Z) :=
  [(Some (el D), 0, 0); (Some (el E), 0, 0)].

End Scenario.

(** ** Gestures and observations *)

Section Gestures.

Context {T : Type} `{IDType T}.


(** The pointer-move events of one gesture, frame by frame. *)
Definition tracking (frames : list (option Element * Z * Z)) : list (Event) :=
  map (fun '(hit, x, y) => MouseMove hit x y) frames.

(** What a pointer-move never touches: the snapshot, both elements, the
    detached item and the listeners. *)
Definition sessionKept (s s' : State T) : Prop :=
  startingLists s' = startingLists s /\
  elem s' = elem s /\
  dragging s' = dragging s /\
  originalItem s' = originalItem s /\
  onMousedown s' = onMousedown s /\
  onMousemove s' = onMousemove s /\
  onMouseup s' = onMouseup s.

(** No session: while nothing is detached the snapshot is the collection
    itself, the move and up listeners are off and no source list is
    recorded. *)
Definition whenIdle (s : State T) : Prop :=
  originalItem s = None ->
  startingLists s = lists s /\ onMousemove s = false /\ onMouseup s = false /\
  originalListIndex s = -1.

(** The identifier scan both loops perform, as the position it resolves:
    the first list, in order, that holds a matching item, and the index of
    its first match. *)
Fixpoint locateFrom (id : option string) (entries : list (list T)) (i : Z)
  : option (Z * Z) :=
  match entries with
  | [] => None
  | l :: rest =>
      if JsArray.findIndex (sameId id) l =? -1
      then locateFrom id rest (i + 1)
      else Some (i, JsArray.findIndex (sameId id) l)
  end.

Definition locate (id : option string) (entries : list (list T))
  : option (Z * Z) :=
  locateFrom id entries 0.

(** Occurrences of an identifier, and the number of items, in the whole
    collection. *)
Definition occurrences (id : string) (ls : list (list T)) : nat :=
  length (filter (fun f => String.eqb (id_toString f) id) (concat ls)).

Definition totalItems (ls : list (list T)) : nat := length (concat ls).

(** The preview record, when there is one, points at the detached item. *)
Definition previewHolds (s : State T) (it : T) : Prop :=
  match addedPreview s with
  | None => True
  | Some p =>
      exists host,
        JsArray.get (lists s) (Preview.list p) = Some host /\
        JsArray.get host (Preview.target p) = Some it
  end.

End Gestures.

(** ** Sessions *)

Section Sessions.

Context {T : Type} `{IDType T}.

(** What [cleanUp] leaves and a gesture starts from: while nothing is
    detached all four indices are [-1] and there is no preview record. *)
Definition atRest (s : State T) : Prop :=
  originalItem s = None ->
  originalIndex s = -1 /\ targetListIndex s = -1 /\ targetIndex s = -1 /\
  addedPreview s = None.

(** The hit of a frame resolves: no element at all, or an element with a
    non-empty id that the scan finds in the collection as it is. *)
Definition resolves (hit : option Element) (s : State T) : Prop :=
  match hit with
  | None => True
  | Some tgt =>
      noId (getAttribute_id tgt) = false /\
      locate (getAttribute_id tgt) (lists s) <> None
  end.

(** Every frame of a gesture resolves in the state the frame before it
    left. *)
Fixpoint resolvedFrames (frames : list (option Element * Z * Z))
  (s : State T) : Prop :=
  match frames with
  | [] => True
  | (hit, x, y) :: rest =>
      resolves hit s /\ resolvedFrames rest (step s (MouseMove hit x y))
  end.

(** A session over [total] items: [it] is detached, a ghost exists, the
    move listener is on, the preview record (if any) points at [it], a valid
    target implies a preview, and [it] is counted once: in the collection
    when previewed, outside it otherwise. *)
Definition inSession (s : State T) (it : T) (total : nat) : Prop :=
  originalItem s = Some it /\
  (exists g, dragging s = Some g) /\
  onMousemove s = true /\
  previewHolds s it /\
  (targetIndex s <> -1 -> addedPreview s <> None) /\
  (totalItems (lists s)
     + match addedPreview s with Some _ => 0 | None => 1 end = total)%nat.

(** The items of the collection, together with the detached item while
    it is not previewed, are the items [all], each as often. *)
Definition sameItems (s : State T) (it : T) (all : list T) : Prop :=
  concat (lists s)
    ++ match addedPreview s with Some _ => [] | None => [it] end
  ≡ₚ all.

(** The collection once the preview of lines 155-157 has been spliced
    out. *)
Definition withoutPreview (s : State T) : list (list T) :=
  match addedPreview s with
  | None => lists s
  | Some p =>
      match JsArray.get (lists s) (Preview.list p) with
      | Some host =>
          JsArray.set (lists s) (Preview.list p)
            (JsArray.splice host (Preview.target p) 1 [])
      | None => lists s
      end
  end.

(** While the up listener is attached the ghost is a child of the
    body. *)
Definition ghostReady (s : State T) : Prop :=
  onMouseup s = true -> exists g, dragging s = Some g /\ inBody g = true.

(** Events that only the move and up listeners receive. *)
Definition pointerOnly (ev : Event) : bool :=
  match ev with
  | MouseMove _ _ _ | MouseUp => true
  | _ => false
  end.

End Sessions.

(** * Properties *)

(** ** The array operations *)

Section ArrayFacts.

Context {A : Type}.
Implicit Types (p : A -> bool) (arr : list A).

Lemma get_Some_lookup arr i (x : A) :
  JsArray.get arr i = Some x -> 0 <= i /\ arr !! Z.to_nat i = Some x.
Proof.
  unfold JsArray.get. destruct (i <? 0) eqn:E; [discriminate|].
  apply Z.ltb_ge in E. now split.
Qed.

Lemma findIndexFrom_range p arr i :
  0 <= i ->
  JsArray.findIndexFrom p arr i = -1 \/
  i <= JsArray.findIndexFrom p arr i < i + Z.of_nat (length arr).
Proof.
  revert i. induction arr as [|a arr IH]; intros i Hi; simpl.
  - now left.
  - destruct (p a).
    + right. lia.
    + destruct (IH (i + 1)) as [->|Hr]; [lia | now left | right; lia].
Qed.

Lemma findIndexFrom_none p arr i :
  0 <= i ->
  JsArray.findIndexFrom p arr i = -1 <-> JsArray.find p arr = None.
Proof.
  revert i. induction arr as [|a arr IH]; intros i Hi; simpl.
  - tauto.
  - destruct (p a).
    + split; [lia | discriminate].
    + apply IH. lia.
Qed.

Lemma findIndexFrom_found p arr i :
  0 <= i -> JsArray.findIndexFrom p arr i <> -1 ->
  exists x, JsArray.get arr (JsArray.findIndexFrom p arr i - i) = Some x /\
            p x = true.
Proof.
  revert i. induction arr as [|a arr IH]; intros i Hi; simpl; [congruence|].
  destruct (p a) eqn:Hp; intros Hne.
  - exists a. rewrite Z.sub_diag. now split.
  - destruct (IH (i + 1)) as (x & Hx & Hpx); [lia|assumption|].
    exists x. split; [|assumption].
    pose proof (findIndexFrom_range p arr (i + 1)) as R.
    unfold JsArray.get in *.
    destruct (JsArray.findIndexFrom p arr (i + 1) - (i + 1) <? 0) eqn:E1;
      [discriminate|].
    apply Z.ltb_ge in E1.
    destruct (JsArray.findIndexFrom p arr (i + 1) - i <? 0) eqn:E2;
      [apply Z.ltb_lt in E2; lia|].
    replace (Z.to_nat (JsArray.findIndexFrom p arr (i + 1) - i))
      with (S (Z.to_nat (JsArray.findIndexFrom p arr (i + 1) - (i + 1))))
      by lia.
    exact Hx.
Qed.

Lemma findIndex_found p arr :
  JsArray.findIndex p arr <> -1 ->
  exists x, JsArray.get arr (JsArray.findIndex p arr) = Some x /\ p x = true.
Proof.
  intros Hne. destruct (findIndexFrom_found p arr 0) as (x & Hx & Hp);
    [lia|exact Hne|].
  rewrite Z.sub_0_r in Hx. now exists x.
Qed.

Lemma get_cons_succ (a : A) arr i :
  0 <= i -> JsArray.get (a :: arr) (i + 1) = JsArray.get arr i.
Proof.
  intros Hi. unfold JsArray.get.
  destruct (i + 1 <? 0) eqn:E1; [apply Z.ltb_lt in E1; lia|].
  destruct (i <? 0) eqn:E2; [apply Z.ltb_lt in E2; lia|].
  now replace (Z.to_nat (i + 1)) with (S (Z.to_nat i)) by lia.
Qed.

Lemma findIndex_none p arr :
  JsArray.findIndex p arr = -1 <-> JsArray.find p arr = None.
Proof. apply findIndexFrom_none. lia. Qed.

End ArrayFacts.

(** ** What each handler leaves alone *)

Section HandlerFacts.

Context {T : Type} `{IDType T}.
Implicit Types (s : State T) (ls : list (list T)).

Lemma jsonCopy_plain ls : jsonCopy ls = ls.
Proof.
  unfold jsonCopy. induction ls as [|l ls IH]; simpl; [reflexivity|].
  rewrite IH. f_equal.
  induction l as [|x l IHl]; simpl; [reflexivity|].
  now rewrite json_roundtrip_plain, IHl.
Qed.

(** The target scan writes nothing but the two target indices. *)
Lemma scanTarget_writes id entries i s :
  exists ti tli, scanTarget id entries i s = set_target ti tli s.
Proof.
  revert i. induction entries as [|l entries IH]; intros i; simpl.
  - exists (targetIndex s), (targetListIndex s). now destruct s.
  - destruct (noId id).
    + exists (targetIndex s), (targetListIndex s). now destruct s.
    + destruct (JsArray.find (sameId id) l); eauto.
Qed.

(** The source scan writes nothing but the two source indices. *)
Lemma scanOriginal_writes id entries i s :
  exists oi oli, scanOriginal id entries i s = set_original oi oli s.
Proof.
  revert i s. induction entries as [|l entries IH]; intros i s; simpl.
  - exists (originalIndex s), (originalListIndex s). now destruct s.
  - destruct (JsArray.findIndex (sameId id) l =? -1).
    + destruct (IH (i + 1) (set_original (JsArray.findIndex (sameId id) l)
                                        (originalListIndex s) s))
        as (oi & oli & ->).
      now exists oi, oli.
    + eauto.
Qed.

(** The source scan resolves the position [locate] names; without a match
    it leaves the recorded source list as it was. *)
Lemma scanOriginal_locate id entries i s :
  scanOriginal id entries i s =
  match locateFrom id entries i with
  | Some (li, oi) => set_original oi li s
  | None =>
      match entries with
      | [] => s
      | _ :: _ => set_original (-1) (originalListIndex s) s
      end
  end.
Proof.
  revert i s. induction entries as [|l entries IH]; intros i s; simpl.
  - reflexivity.
  - destruct (JsArray.findIndex (sameId id) l =? -1) eqn:E.
    + apply Z.eqb_eq in E. rewrite IH, E.
      destruct (locateFrom id entries (i + 1)) as [[li oi]|].
      * reflexivity.
      * now destruct entries.
    + reflexivity.
Qed.

(** The target scan resolves the same position, and writes nothing when
    the element has no id or no list holds it. *)
Lemma scanTarget_locate id entries i s :
  scanTarget id entries i s =
  if noId id then s
  else match locateFrom id entries i with
       | Some (li, ti) => set_target ti li s
       | None => s
       end.
Proof.
  revert i. induction entries as [|l entries IH]; intros i; simpl.
  - now destruct (noId id).
  - destruct (noId id) eqn:En; [reflexivity|].
    destruct (JsArray.find (sameId id) l) as [f|] eqn:Ef.
    + destruct (JsArray.findIndex (sameId id) l =? -1) eqn:E; [|reflexivity].
      apply Z.eqb_eq, findIndex_none in E. congruence.
    + apply findIndex_none in Ef. rewrite Ef. simpl. apply IH.
Qed.

(** A resolved position holds an item with the identifier. *)
Lemma locateFrom_defined id entries i li oi :
  0 <= i -> locateFrom id entries i = Some (li, oi) ->
  exists host it,
    JsArray.get entries (li - i) = Some host /\
    JsArray.get host oi = Some it /\ sameId id it = true.
Proof.
  revert i. induction entries as [|l entries IH]; intros i Hi; simpl;
    [discriminate|].
  destruct (JsArray.findIndex (sameId id) l =? -1) eqn:E.
  - intros Hloc. destruct (IH (i + 1)) as (host & it & Hh & Hg & Hp);
      [lia|exact Hloc|].
    exists host, it. split; [|now split].
    assert (0 <= li - (i + 1)).
    { unfold JsArray.get in Hh.
      destruct (li - (i + 1) <? 0) eqn:E1; [discriminate|].
      now apply Z.ltb_ge in E1. }
    replace (li - i) with ((li - (i + 1)) + 1) by lia.
    now rewrite get_cons_succ.
  - intros [= <- <-]. apply Z.eqb_neq in E.
    destruct (findIndex_found _ _ E) as (it & Hg & Hp).
    exists l, it. rewrite Z.sub_diag. now repeat split.
Qed.

Lemma locate_defined id entries li oi :
  locate id entries = Some (li, oi) ->
  exists host it,
    JsArray.get entries li = Some host /\
    JsArray.get host oi = Some it /\ sameId id it = true.
Proof.
  intros Hloc. destruct (locateFrom_defined id entries 0 li oi)
    as (host & it & Hh & Hg & Hp); [lia|exact Hloc|].
  rewrite Z.sub_0_r in Hh. now exists host, it.
Qed.

(** The scan resolves nothing exactly when no item of any list carries
    the identifier. *)
Lemma locateFrom_none id entries i :
  locateFrom id entries i = None <->
  (forall l f, l ∈ entries -> f ∈ l -> sameId id f = false).
Proof.
  revert i. induction entries as [|l0 entries IH]; intros i; simpl.
  - split; [|reflexivity]. intros _ l f Hl. now apply elem_of_nil in Hl.
  - destruct (JsArray.findIndex (sameId id) l0 =? -1) eqn:E.
    + apply Z.eqb_eq, findIndex_none in E. rewrite IH. split.
      * intros Hrest l f Hl Hf. apply elem_of_cons in Hl as [->|Hl].
        -- apply (find_none _ _ E). now apply list_elem_of_In.
        -- now apply (Hrest l).
      * intros Hall l f Hl. apply Hall. apply elem_of_cons. now right.
    + apply Z.eqb_neq in E. split; [discriminate|]. intros Hall. exfalso.
      destruct (findIndex_found _ _ E) as (f & Hg & Hp).
      apply get_Some_lookup in Hg as [_ Hg].
      rewrite (Hall l0 f) in Hp; [discriminate| |].
      * apply elem_of_cons. now left.
      * eapply list_elem_of_lookup_2. eassumption.
Qed.

Lemma locate_none id entries :
  locate id entries = None <->
  (forall l f, l ∈ entries -> f ∈ l -> sameId id f = false).
Proof. apply locateFrom_none. Qed.

End HandlerFacts.

Section SessionFacts.

Context {T : Type} `{IDType T}.
Implicit Types (s : State T) (ls : list (list T)).

Lemma sessionKept_refl s : sessionKept s s.
Proof. repeat split. Qed.

Lemma sessionKept_trans s1 s2 s3 :
  sessionKept s1 s2 -> sessionKept s2 s3 -> sessionKept s1 s3.
Proof.
  unfold sessionKept. intros (?&?&?&?&?&?&?) (?&?&?&?&?&?&?).
  repeat split; congruence.
Qed.

Lemma spliceList_kept li start dc items s :
  sessionKept s (after (spliceList li start dc items s)).
Proof.
  unfold spliceList, bind, read, defined, write.
  destruct (JsArray.get (lists s) li); simpl; repeat split.
Qed.

Lemma handleMouseMove_kept hit x y s :
  sessionKept s (after (handleMouseMove hit x y s)).
Proof.
  unfold handleMouseMove, bind, read, write, ret. simpl.
  destruct (dragging s) as [g|] eqn:Hg; [|apply sessionKept_refl].
  destruct hit as [tgt|]; [|simpl; repeat split; assumption].
  destruct (scanTarget_writes (getAttribute_id tgt) (lists s) 0 s)
    as (ti & tli & ->).
  simpl.
  set (s1 := set_target ti tli s).
  assert (K1 : sessionKept s s1) by (repeat split).
  destruct (addedPreview s) as [p|].
  - pose proof (spliceList_kept (Preview.list p) (Preview.target p) 1 [] s1)
      as K2.
    destruct (spliceList (Preview.list p) (Preview.target p) 1 [] s1)
      as [[] s2|e s2]; simpl in *.
    + pose proof (sessionKept_trans _ _ _ K1 K2) as K12.
      destruct (originalItem s2) as [it|].
      * pose proof (spliceList_kept (targetListIndex s2) (targetIndex s2)
                      0 [it] s2) as K3.
        destruct (spliceList (targetListIndex s2) (targetIndex s2) 0 [it] s2)
          as [[] s3|e s3]; simpl in *.
        -- apply (sessionKept_trans _ _ _ (sessionKept_trans _ _ _ K12 K3)).
           repeat split.
        -- exact (sessionKept_trans _ _ _ K12 K3).
      * simpl. apply (sessionKept_trans _ _ _ K12). repeat split.
    + exact (sessionKept_trans _ _ _ K1 K2).
  - simpl. destruct (originalItem s) as [it|]; simpl.
    + pose proof (spliceList_kept tli ti 0 [it] s1) as K3.
      destruct (spliceList tli ti 0 [it] s1) as [[] s3|e s3]; simpl in *.
      * apply (sessionKept_trans _ _ _ (sessionKept_trans _ _ _ K1 K3)).
        repeat split.
      * exact (sessionKept_trans _ _ _ K1 K3).
    + repeat split.
Qed.

Lemma step_move_kept hit x y s : sessionKept s (step s (MouseMove hit x y)).
Proof.
  unfold step, dispatch, bind, read, ret. simpl.
  destruct (onMousemove s); [apply handleMouseMove_kept|apply sessionKept_refl].
Qed.

Lemma tracking_kept frames s : sessionKept s (run (tracking frames) s).
Proof.
  revert s. induction frames as [|[[hit x] y] frames IH]; intros s; simpl.
  - apply sessionKept_refl.
  - eapply sessionKept_trans; [apply step_move_kept|apply IH].
Qed.

End SessionFacts.

(** ** Pointer-down and pointer-up *)

Section CaptureRelease.

Context {T : Type} `{IDType T}.
Implicit Types (s : State T) (ls : list (list T)).

(** With nothing detached, a pointer-down on the handle of an item that
    the scan finds captures it: the item is copied and spliced out, the
    ghost is in the body and both listeners are on. *)
Lemma mousedown_captures el x y s li oi :
  originalItem s = None ->
  locate (getAttribute_id el) (lists s) = Some (li, oi) ->
  exists host it s',
    JsArray.get (lists s) li = Some host /\ JsArray.get host oi = Some it /\
    mousedown (HTMLElement (Some el)) x y s = Normal tt s' /\
    lists s' = JsArray.set (lists s) li (JsArray.splice host oi 1 []) /\
    originalItem s' = Some it /\
    startingLists s' = startingLists s /\
    elem s' = Some el /\
    (exists g, dragging s' = Some g /\ inBody g = true) /\
    onMousedown s' = onMousedown s /\
    onMousemove s' = true /\ onMouseup s' = true /\
    targetIndex s' = targetIndex s.
Proof.
  intros Hnone Hloc.
  destruct (locate_defined _ _ _ _ Hloc) as (host & it & Hh & Hg & _).
  exists host, it.
  unfold mousedown, bind, read, write, ret. simpl.
  rewrite scanOriginal_locate. fold (locate (getAttribute_id el) (lists s)).
  rewrite Hloc. simpl. rewrite Hnone.
  unfold defined, spliceList, bind, read, write, ret. simpl.
  rewrite Hh. simpl. rewrite Hg. simpl. rewrite Hh. simpl.
  rewrite json_roundtrip_plain.
  eexists. repeat split; eauto.
Qed.

(** With nothing detached and no source list recorded, a pointer-down on a
    handle whose identifier no list holds reads an index of [undefined]:
    it throws before it has touched the collection or the listeners. *)
Lemma mousedown_unknown el x y s :
  originalItem s = None -> originalListIndex s = -1 ->
  locate (getAttribute_id el) (lists s) = None ->
  exists s',
    mousedown (HTMLElement (Some el)) x y s = Throw TypeError s' /\
    lists s' = lists s /\ originalItem s' = None /\
    originalListIndex s' = -1 /\
    startingLists s' = startingLists s /\
    onMousedown s' = onMousedown s /\
    onMousemove s' = onMousemove s /\ onMouseup s' = onMouseup s.
Proof.
  intros Hnone Holi Hloc.
  unfold mousedown, bind, read, write, ret. simpl.
  rewrite scanOriginal_locate. fold (locate (getAttribute_id el) (lists s)).
  rewrite Hloc. unfold defined, throw.
  destruct (lists s) as [|l ls] eqn:El; simpl; rewrite Hnone; simpl;
    rewrite ?El, Holi; simpl; eexists; repeat split; assumption.
Qed.

(** Either way: a capture, or a throw that leaves nothing detached. *)
Lemma mousedown_nothing_detached el x y s :
  originalItem s = None -> originalListIndex s = -1 ->
  match mousedown (HTMLElement (Some el)) x y s with
  | Normal _ s' =>
      startingLists s' = startingLists s /\
      elem s' = Some el /\
      (exists g, dragging s' = Some g /\ inBody g = true) /\
      (exists it, originalItem s' = Some it) /\
      onMousedown s' = onMousedown s /\
      onMousemove s' = true /\ onMouseup s' = true /\
      targetIndex s' = targetIndex s
  | Throw _ s' =>
      originalItem s' = None /\ lists s' = lists s /\
      startingLists s' = startingLists s /\
      onMousedown s' = onMousedown s /\
      onMousemove s' = onMousemove s /\ onMouseup s' = onMouseup s /\
      originalListIndex s' = -1
  end.
Proof.
  intros Hnone Holi.
  destruct (locate (getAttribute_id el) (lists s)) as [[li oi]|] eqn:Hloc.
  - destruct (mousedown_captures el x y s li oi Hnone Hloc)
      as (host & it & s' & _ & _ & -> & _ & Hit & Hs & He & Hg & Hd & Hm & Hu & Ht).
    repeat split; eauto.
  - destruct (mousedown_unknown el x y s Hnone Holi Hloc)
      as (s' & -> & Hl & Ho & Hi & Hs & Hd & Hm & Hu).
    repeat split; assumption.
Qed.

(** With an item already detached, a pointer-down anywhere returns
    normally and rewrites neither the collection, the snapshot, the
    detached item, the preview nor the target indices. *)
Lemma mousedown_active tgt x y s it :
  originalItem s = Some it ->
  exists s', mousedown tgt x y s = Normal tt s' /\
    lists s' = lists s /\ startingLists s' = startingLists s /\
    originalItem s' = Some it /\ addedPreview s' = addedPreview s /\
    targetIndex s' = targetIndex s /\
    targetListIndex s' = targetListIndex s /\
    onMousedown s' = onMousedown s.
Proof.
  intros Hit. unfold mousedown, bind, read, write, ret.
  destruct tgt as [|[el|]]; simpl.
  - eexists; repeat split; assumption.
  - destruct (scanOriginal_writes (getAttribute_id el) (lists s) 0
                (set_dragging (Some (cloneNode el)) (set_elem (Some el) s)))
      as (oi & oli & ->).
    simpl. rewrite Hit. simpl. eexists; repeat split; assumption.
  - eexists; repeat split; assumption.
Qed.

(** Releasing with the ghost in place and no target restores the
    snapshot and ends the session. *)
Lemma handleMouseUp_rollback s g e :
  dragging s = Some g -> inBody g = true -> elem s = Some e ->
  targetIndex s = -1 ->
  exists s', handleMouseUp s = Normal tt s' /\
    lists s' = startingLists s /\ startingLists s' = startingLists s /\
    originalItem s' = None /\
    onMousemove s' = false /\ onMouseup s' = false /\
    onMousedown s' = onMousedown s /\ originalListIndex s' = -1.
Proof.
  intros Hg Hin He Hti.
  unfold handleMouseUp, bind, read, write, ret, removeChild. simpl.
  rewrite Hg, He, Hin. simpl. rewrite Hti. simpl.
  eexists; repeat split. simpl. apply jsonCopy_plain.
Qed.

(** Releasing with the ghost in place over a target keeps the collection
    and makes it the snapshot. *)
Lemma handleMouseUp_commit s g e :
  dragging s = Some g -> inBody g = true -> elem s = Some e ->
  targetIndex s <> -1 ->
  exists s', handleMouseUp s = Normal tt s' /\
    lists s' = lists s /\ startingLists s' = lists s /\
    originalItem s' = None /\
    onMousemove s' = false /\ onMouseup s' = false /\
    onMousedown s' = onMousedown s /\ originalListIndex s' = -1.
Proof.
  intros Hg Hin He Hti.
  unfold handleMouseUp, bind, read, write, ret, removeChild. simpl.
  rewrite Hg, He, Hin. simpl.
  destruct (targetIndex s =? -1) eqn:E; [apply Z.eqb_eq in E; contradiction|].
  simpl. eexists; repeat split. simpl. apply jsonCopy_plain.
Qed.

(** Whatever the state, a release either changes nothing or ends the
    session with collection and snapshot equal. *)
Lemma handleMouseUp_cases s :
  after (handleMouseUp s) = s \/
  (let s' := after (handleMouseUp s) in
   originalItem s' = None /\ startingLists s' = lists s' /\
   onMousemove s' = false /\ onMouseup s' = false /\
   originalListIndex s' = -1).
Proof.
  unfold handleMouseUp, bind, read, write, ret, removeChild, throw. simpl.
  destruct (dragging s) as [g|]; [|now left].
  destruct (elem s) as [e|]; [|now left].
  destruct (inBody g); [|now left].
  right. simpl.
  destruct (targetIndex s =? -1); simpl; repeat split;
    now rewrite jsonCopy_plain.
Qed.

(** No handler but a committing release writes the snapshot. *)
Lemma handleMouseUp_snapshot s :
  targetIndex s = -1 ->
  startingLists (after (handleMouseUp s)) = startingLists s.
Proof.
  intros Hti.
  unfold handleMouseUp, bind, read, write, ret, removeChild, throw. simpl.
  destruct (dragging s) as [g|]; [|reflexivity].
  destruct (elem s) as [e|]; [|reflexivity].
  destruct (inBody g); [|reflexivity].
  simpl. now rewrite Hti.
Qed.

Lemma handleMouseUp_onMousedown s :
  onMousedown (after (handleMouseUp s)) = onMousedown s.
Proof.
  unfold handleMouseUp, bind, read, write, ret, removeChild, throw. simpl.
  destruct (dragging s) as [g|]; [|reflexivity].
  destruct (elem s) as [e|]; [|reflexivity].
  destruct (inBody g); [|reflexivity].
  simpl. now destruct (targetIndex s =? -1).
Qed.

Lemma mousedown_snapshot tgt x y s :
  startingLists (after (mousedown tgt x y s)) = startingLists s /\
  onMousedown (after (mousedown tgt x y s)) = onMousedown s.
Proof.
  unfold mousedown, bind, read, write, ret.
  destruct tgt as [|[el|]]; simpl; [now split| |now split].
  destruct (scanOriginal_writes (getAttribute_id el) (lists s) 0
              (set_dragging (Some (cloneNode el)) (set_elem (Some el) s)))
    as (oi & oli & ->).
  simpl. destruct (originalItem s) as [it|]; simpl; [now split|].
  unfold defined, spliceList, bind, read, write, ret, throw, jsonCopyItem.
  simpl.
  destruct (JsArray.get (lists s) oli) as [host|] eqn:Hh; simpl; [|now split].
  destruct (JsArray.get host oi) as [it|]; simpl; [|now split].
  rewrite Hh. simpl. now split.
Qed.

(** ** The invariant between gestures *)

Lemma useDragDrop_whenIdle items : whenIdle (useDragDrop items).
Proof. intros _. simpl. repeat split. apply jsonCopy_plain. Qed.

Lemma step_whenIdle s ev : whenIdle s -> whenIdle (step s ev).
Proof.
  intros I. unfold step. destruct ev as [| |tgt x y|hit x y|]; simpl.
  - exact I.
  - intros Ho. destruct (I Ho) as (? & ? & ? & ?). repeat split; assumption.
  - unfold dispatch, bind, read, ret. simpl.
    destruct (onMousedown s); [|exact I].
    destruct (originalItem s) as [it|] eqn:Ho.
    + destruct (mousedown_active tgt x y s it Ho) as (s' & -> & _ & _ & Hs & _).
      simpl. intros Hn. congruence.
    + destruct (I Ho) as (Is & Im & Iu & Ii).
      destruct tgt as [|[el|]].
      * exact I.
      * pose proof (mousedown_nothing_detached el x y s Ho Ii) as M.
        destruct (mousedown (HTMLElement (Some el)) x y s) as [[] s'|e s'];
          simpl.
        -- destruct M as (_ & _ & _ & [it Hit] & _). intros Hn. congruence.
        -- destruct M as (_ & Hl & Hs & _ & Hm & Hu & Hi). intros _.
           repeat split; congruence.
      * unfold mousedown, bind, write, ret. simpl. intros _.
        repeat split; assumption.
  - unfold dispatch, bind, read, ret. simpl.
    destruct (onMousemove s) eqn:Em; [|exact I].
    pose proof (handleMouseMove_kept hit x y s) as (_ & _ & _ & Ko & _).
    intros Hn. rewrite Ko in Hn. destruct (I Hn) as (_ & Hm & _). congruence.
  - unfold dispatch, bind, read, ret. simpl.
    destruct (onMouseup s); [|exact I].
    destruct (handleMouseUp_cases s) as [->|(Ho & Hs & Hm & Hu & Hi)];
      [exact I|].
    intros _. repeat split; assumption.
Qed.

Lemma run_whenIdle evs s : whenIdle s -> whenIdle (run evs s).
Proof.
  revert s. induction evs as [|ev evs IH]; intros s I; simpl; [exact I|].
  apply IH, step_whenIdle, I.
Qed.

(** A gesture that captured and is released without a target ends on the
    snapshot the capture found. *)
Lemma failed_gesture el x y frames s :
  originalItem s = None -> originalListIndex s = -1 ->
  let s1 := step s (MouseDown (HTMLElement (Some el)) x y) in
  originalItem s1 <> None ->
  let s2 := run (tracking frames) s1 in
  targetIndex s2 = -1 ->
  startingLists s2 = startingLists s /\
  lists (step s2 MouseUp) = startingLists s /\
  startingLists (step s2 MouseUp) = startingLists s /\
  originalItem (step s2 MouseUp) = None.
Proof.
  intros Hnone Holi s1 Hcap s2 Hti.
  assert (C : startingLists s1 = startingLists s /\
              (exists e, elem s1 = Some e) /\
              (exists g, dragging s1 = Some g /\ inBody g = true) /\
              onMouseup s1 = true).
  { subst s1. unfold step, dispatch, bind, read, ret in *. simpl in *.
    destruct (onMousedown s); [|contradiction].
    pose proof (mousedown_nothing_detached el x y s Hnone Holi) as M.
    destruct (mousedown (HTMLElement (Some el)) x y s) as [[] s'|e s'];
      simpl in *.
    - destruct M as (Hs & He & Hg & _ & _ & _ & Hu & _). eauto 6.
    - destruct M as (Ho & _). contradiction. }
  destruct C as (Cs & [e Ce] & (g & Cg & Cin) & Cu).
  destruct (tracking_kept frames s1) as (Ks & Ke & Kg & _ & _ & _ & Ku).
  fold s2 in Ks, Ke, Kg, Ku.
  assert (Hg : dragging s2 = Some g) by congruence.
  assert (He : elem s2 = Some e) by congruence.
  destruct (handleMouseUp_rollback s2 g e Hg Cin He Hti)
    as (s3 & E3 & Hl & Hs & Ho & _).
  unfold step, dispatch, bind, read, ret. simpl.
  replace (onMouseup s2) with true by congruence.
  rewrite E3. simpl. repeat split; congruence.
Qed.

End CaptureRelease.

(** ** Counting items *)

Section Counting.

Context {T : Type} `{IDType T}.
Implicit Types (s : State T) (ls : list (list T)) (l : list T).

(** [splice(i, 1)] at an occupied index takes exactly one element out. *)
Lemma splice_delete_length l i x :
  JsArray.get l i = Some x ->
  (length (JsArray.splice l i 1 []) + 1 = length l)%nat.
Proof.
  intros Hg. apply get_Some_lookup in Hg as [Hi Hl].
  apply lookup_lt_Some in Hl.
  unfold JsArray.splice, JsArray.relativeStart.
  destruct (i <? 0) eqn:E; [apply Z.ltb_lt in E; lia|].
  simpl. rewrite length_app, length_take, length_drop. lia.
Qed.

(** [splice(i, 0, x)] puts exactly one element in, wherever [i] points. *)
Lemma splice_insert_length l i x :
  length (JsArray.splice l i 0 [x]) = S (length l).
Proof.
  unfold JsArray.splice, JsArray.relativeStart.
  destruct (i <? 0); simpl; rewrite length_app; simpl;
    rewrite length_take, length_drop; lia.
Qed.

(** Replacing one list of the collection changes the total by the
    difference of the two lengths. *)
Lemma totalItems_set ls li host l' :
  JsArray.get ls li = Some host ->
  (totalItems (JsArray.set ls li l') + length host
   = totalItems ls + length l')%nat.
Proof.
  intros Hg. apply get_Some_lookup in Hg as [Hi Hl].
  unfold JsArray.set, totalItems.
  destruct (li <? 0) eqn:E; [apply Z.ltb_lt in E; lia|].
  rewrite <- (take_drop_middle ls (Z.to_nat li) host Hl) at 2.
  rewrite insert_take_drop by (eapply lookup_lt_Some; eassumption).
  rewrite !concat_app. simpl. rewrite !length_app. lia.
Qed.

Lemma get_lt {A} (arr : list A) i (x : A) :
  JsArray.get arr i = Some x -> 0 <= i < Z.of_nat (length arr).
Proof.
  intros Hg. apply get_Some_lookup in Hg as [Hi Hl].
  apply lookup_lt_Some in Hl. lia.
Qed.

Lemma get_set_eq {A} (arr : list A) i (x y : A) :
  JsArray.get arr i = Some x -> JsArray.get (JsArray.set arr i y) i = Some y.
Proof.
  intros Hg. apply get_Some_lookup in Hg as [Hi Hl].
  unfold JsArray.get, JsArray.set.
  destruct (i <? 0) eqn:E; [apply Z.ltb_lt in E; lia|].
  apply list_lookup_insert_eq. eapply lookup_lt_Some; eassumption.
Qed.

Lemma get_set_ne {A} (arr : list A) i j (y : A) :
  i <> j -> JsArray.get (JsArray.set arr i y) j = JsArray.get arr j.
Proof.
  intros Hne. unfold JsArray.get, JsArray.set.
  destruct (j <? 0) eqn:Ej; [reflexivity|]. apply Z.ltb_ge in Ej.
  destruct (i <? 0) eqn:Ei; [reflexivity|]. apply Z.ltb_ge in Ei.
  apply list_lookup_insert_ne. lia.
Qed.

(** [splice(i, 0, x)] with [i] inside the array, or just past its end,
    leaves [x] at index [i]. *)
Lemma splice_insert_get l i x :
  0 <= i <= Z.of_nat (length l) ->
  JsArray.get (JsArray.splice l i 0 [x]) i = Some x.
Proof.
  intros Hi. unfold JsArray.get, JsArray.splice, JsArray.relativeStart.
  destruct (i <? 0) eqn:E; [apply Z.ltb_lt in E; lia|].
  rewrite Z.min_l by lia.
  rewrite lookup_app_r; rewrite length_take; [|lia].
  replace (Z.to_nat i - Z.to_nat i `min` length l)%nat with 0%nat by lia.
  reflexivity.
Qed.

End Counting.

(** ** The preview *)

Section PreviewManager.

Context {T : Type} `{IDType T}.
Implicit Types (s : State T) (ls : list (list T)) (l : list T).

(** A frame over no element only invalidates the target. *)
Lemma handleMouseMove_no_hit x y s g :
  dragging s = Some g ->
  handleMouseMove None x y s
  = Normal tt (set_target (-1) (targetListIndex s) s).
Proof.
  intros Hg. unfold handleMouseMove, bind, read, write. now rewrite Hg.
Qed.

(** A frame over the element of an item that the scan resolves at
    [(tl, ti)], with the preview (if any) pointing at the detached item:
    the frame returns normally, the preview record becomes [(tl, ti)] and
    points at the detached item again, and the collection has gained one
    item if there was no preview and none otherwise. *)
Lemma handleMouseMove_resolved tgt x y s it g tl ti :
  dragging s = Some g -> originalItem s = Some it ->
  noId (getAttribute_id tgt) = false ->
  locate (getAttribute_id tgt) (lists s) = Some (tl, ti) ->
  previewHolds s it ->
  exists s',
    handleMouseMove (Some tgt) x y s = Normal tt s' /\
    addedPreview s'
      = Some {| Preview.list := tl; Preview.target := ti |} /\
    targetListIndex s' = tl /\ targetIndex s' = ti /\
    previewHolds s' it /\
    totalItems (lists s')
    = (totalItems (lists s)
       + match addedPreview s with Some _ => 0 | None => 1 end)%nat.
Proof.
  intros Hg Hit Hid Hloc Hprev.
  destruct (locate_defined _ _ _ _ Hloc) as (hostT & xT & HhT & HgT & _).
  pose proof (get_lt _ _ _ HgT) as Hti.
  (* the list the item goes into, after the old preview has left *)
  assert (R : exists ls2 h2,
             (match addedPreview s with
              | Some p => spliceList (Preview.list p) (Preview.target p) 1 []
              | None => ret tt
              end) (set_target ti tl s)
             = Normal tt (set_lists ls2 (set_target ti tl s)) /\
             JsArray.get ls2 tl = Some h2 /\
             0 <= ti <= Z.of_nat (length h2) /\
             (totalItems ls2
                + match addedPreview s with Some _ => 1 | None => 0 end
              = totalItems (lists s))%nat).
  { unfold previewHolds in Hprev.
    destruct (addedPreview s) as [[pl pt]|]; simpl in *.
    - destruct Hprev as (hostP & HhP & HgP).
      pose proof (splice_delete_length hostP pt it HgP) as Hlen.
      pose proof (totalItems_set (lists s) pl hostP
                    (JsArray.splice hostP pt 1 []) HhP) as Htot.
      unfold spliceList, bind, read, defined, write, ret. simpl.
      rewrite HhP.
      exists (JsArray.set (lists s) pl (JsArray.splice hostP pt 1 [])).
      destruct (Z.eq_dec pl tl) as [->|Hne].
      + exists (JsArray.splice hostP pt 1 []).
        assert (hostP = hostT) by congruence. subst hostP.
        repeat split; [eapply get_set_eq; eassumption|lia|lia|lia].
      + exists hostT. rewrite get_set_ne by assumption.
        repeat split; [assumption|lia|lia|lia].
    - exists (lists s), hostT. destruct s; simpl in *.
      repeat split; [assumption|lia|lia|lia]. }
  destruct R as (ls2 & h2 & E2 & Hh2 & Hr & Htot2).
  unfold handleMouseMove, bind, read, write, ret. rewrite Hg.
  rewrite scanTarget_locate, Hid. fold (locate (getAttribute_id tgt) (lists s)).
  rewrite Hloc. simpl. unfold ret in E2. rewrite E2. simpl. rewrite Hit.
  unfold spliceList, bind, read, defined, write, ret. simpl. rewrite Hh2.
  eexists. split; [reflexivity|]. simpl.
  pose proof (totalItems_set ls2 tl h2 (JsArray.splice h2 ti 0 [it]) Hh2)
    as Htot3.
  rewrite splice_insert_length in Htot3.
  repeat split.
  - unfold previewHolds. simpl.
    exists (JsArray.splice h2 ti 0 [it]).
    split; [eapply get_set_eq; eassumption|now apply splice_insert_get].
  - destruct (addedPreview s); lia.
Qed.

End PreviewManager.

(** ** The snapshot a failed drag restores *)

Section Snapshot.

Context {T : Type} `{IDType T}.
Implicit Types (s : State T) (ls : list (list T)).



End Snapshot.

(** * The claims *)

Section Claims.

Context {T : Type} `{IDType T}.
Implicit Types (s : State T) (items : list (list T)).


(** C2 (as the code has it): with nothing detached, a pointer-down on a
    handle whose identifier no list holds does not return silently.  The
    listener throws a [TypeError] on [lists.value[-1][-1]]; the collection
    is untouched and no item is detached. *)
Theorem unknown_source_throws items history el x y :
  let s := run history (useDragDrop items) in
  onMousedown s = true ->
  originalItem s = None ->
  (forall l f, l ∈ lists s -> f ∈ l -> sameId (getAttribute_id el) f = false) ->
  exists s',
    dispatch (MouseDown (HTMLElement (Some el)) x y) s = Throw TypeError s' /\
    lists s' = lists s /\ originalItem s' = None.
Proof.
  intros s Hon Hnone Hloc. apply locate_none in Hloc.
  destruct (run_whenIdle history _ (useDragDrop_whenIdle items) Hnone)
    as (_ & _ & _ & Ii).
  fold s in Ii.
  destruct (mousedown_unknown el x y s Hnone Ii Hloc)
    as (s' & E & Hl & Ho & _).
  exists s'. unfold dispatch, bind, read. simpl. rewrite Hon. now rewrite E.
Qed.

(** C7: a release over a target ([targetIndex] not [-1]) keeps the
    collection and makes it the snapshot; the next gesture, released
    without a target, ends on that committed arrangement and leaves the
    snapshot as the commit wrote it; and no event other than such a
    committing release ever changes the snapshot. *)
Theorem commit_refreshes_baseline s g e :
  onMouseup s = true ->
  dragging s = Some g -> inBody g = true -> elem s = Some e ->
  targetIndex s <> -1 ->
  let c := step s MouseUp in
  (lists c = lists s /\ startingLists c = lists s) /\
  (forall el x y frames,
      let s1 := step c (MouseDown (HTMLElement (Some el)) x y) in
      originalItem s1 <> None ->
      let s2 := run (tracking frames) s1 in
      targetIndex s2 = -1 ->
      lists (step s2 MouseUp) = lists c /\
      startingLists (step s2 MouseUp) = startingLists c) /\
  (forall s0 ev,
      startingLists (step s0 ev) <> startingLists s0 ->
      ev = MouseUp /\ targetIndex s0 <> -1).
Proof.
  intros Hu Hg Hin He Hti c.
  destruct (handleMouseUp_commit s g e Hg Hin He Hti)
    as (s' & E & Hl & Hs & Ho & _ & _ & _ & Hi).
  assert (Ec : c = s').
  { unfold c, step, dispatch, bind, read. simpl. rewrite Hu. now rewrite E. }
  rewrite Ec in *. split; [now split|]. split.
  - intros el x y frames s1 Hcap s2 Hti2.
    destruct (failed_gesture el x y frames s' Ho Hi Hcap Hti2)
      as (_ & Hl2 & Hs2 & _).
    fold s1 s2 in Hl2, Hs2. split; congruence.
  - intros s0 ev Hne. unfold step in Hne.
    destruct ev as [| |tgt x y|hit x y|]; simpl in Hne; try congruence.
    + exfalso. apply Hne. unfold dispatch, bind, read, ret. simpl.
      destruct (onMousedown s0); [|reflexivity].
      apply mousedown_snapshot.
    + exfalso. apply Hne. apply (step_move_kept hit x y s0).
    + split; [reflexivity|]. intros Hm. apply Hne.
      unfold dispatch, bind, read, ret. simpl.
      destruct (onMouseup s0); [|reflexivity].
      now apply handleMouseUp_snapshot.
Qed.

(** C10: the unmount hook removes the move and up listeners and nothing
    else; no event ever removes the pointer-down listener; so after an
    unmount a pointer-down on the handle of an item still captures it: the
    item leaves the collection and both listeners are attached again. *)
Theorem mousedown_listener_survives_unmount :
  (forall s,
      onMousemove (step s Unmounted) = false /\
      onMouseup (step s Unmounted) = false /\
      onMousedown (step s Unmounted) = onMousedown s) /\
  (forall evs s, onMousedown s = true -> onMousedown (run evs s) = true) /\
  (forall s el x y li oi,
      onMousedown s = true -> originalItem s = None ->
      locate (getAttribute_id el) (lists s) = Some (li, oi) ->
      exists s',
        dispatch (MouseDown (HTMLElement (Some el)) x y) (step s Unmounted)
          = Normal tt s' /\
        (exists it, originalItem s' = Some it) /\
        (totalItems (lists s') + 1 = totalItems (lists s))%nat /\
        onMousemove s' = true /\ onMouseup s' = true).
Proof.
  split; [|split].
  - intros s. now repeat split.
  - intros evs. induction evs as [|ev evs IH]; intros s Hon; simpl;
      [exact Hon|].
    apply IH. unfold step.
    destruct ev as [| |tgt x y|hit x y|]; simpl;
      [reflexivity|assumption| | |].
    + unfold dispatch, bind, read, ret. simpl. rewrite Hon.
      destruct (mousedown_snapshot tgt x y s) as [_ ->]. exact Hon.
    + destruct (step_move_kept hit x y s) as (_ & _ & _ & _ & Kd & _).
      exact (eq_trans Kd Hon).
    + unfold dispatch, bind, read, ret. simpl.
      destruct (onMouseup s); [|exact Hon].
      now rewrite handleMouseUp_onMousedown.
  - intros s el x y li oi Hon Hnone Hloc.
    set (u := step s Unmounted).
    assert (Hu : lists u = lists s /\ originalItem u = None /\
                 onMousedown u = true) by now repeat split.
    destruct Hu as (Ul & Uo & Ud).
    rewrite <- Ul in Hloc.
    destruct (mousedown_captures el x y u li oi Uo Hloc)
      as (host & it & s' & Hh & Hg & E & Hl & Hit & _ & _ & _ & _ & Hm & Hup & _).
    exists s'. split.
    { unfold dispatch, bind, read. rewrite Ud. exact E. }
    repeat split; eauto.
    rewrite Hl, <- Ul.
    pose proof (totalItems_set (lists u) li host
                  (JsArray.splice host oi 1 []) Hh) as Ht.
    pose proof (splice_delete_length host oi it Hg) as Hd.
    lia.
Qed.

End Claims.

(** * The scenarios *)

Section Scenarios.

Import Scenario.
Local Open Scope string_scope.



(** A press on a handle bound to ["Z"], which the board does not hold. *)
Lemma unknown_source_throws_witness :
  exists s',
    dispatch (MouseDown (HTMLElement (Some foreign)) 0 0)
      (run [Mounted] (useDragDrop board))
    = Throw TypeError s' /\
    lists s' = lists (run [Mounted] (useDragDrop board)) /\
    originalItem s' = None.
Proof.
  refine (unknown_source_throws board [Mounted] foreign 0 0 _ _ _).
  - vm_compute. reflexivity.
  - vm_compute. reflexivity.
  - apply locate_none. vm_compute. reflexivity.
Defined.

(** C3 (as the code has it): the dragged item can occupy two positions.
    With [A] previewed in front of [D], a frame over no element sets
    [targetIndex] to [-1]; two frames over an element without an id then
    run the preview update with that stale index: the first re-inserts [A]
    by [splice(-1, 0, A)], the second removes [E] by [splice(-1, 1)] and
    inserts [A] again. *)
Theorem stale_target_duplicates_dragged_item :
  originalItem offTarget = Some A /\
  lists offTarget = [[B; C]; [A; D; E]] /\
  lists (run [overElement unbound] offTarget) = [[B; C]; [D; A; E]] /\
  lists (run [overElement unbound; overElement unbound] offTarget)
    = [[B; C]; [D; A; A]] /\
  occurrences "A"
    (lists (run [overElement unbound; overElement unbound] offTarget)) = 2%nat.
Proof. vm_compute. repeat split. Qed.

(** C4 (as the code has it): one pointer-move over [D] gives the expected
    [[B,C],[A,D,E]], but a second one resolves [D] at index [1], behind the
    preview, removes the preview and inserts [A] at [1]: the gesture ends
    on [[B,C],[D,A,E]]. *)
Theorem cross_list_move_depends_on_frame_count :
  lists (dragOnto A D 1 board) = [[B; C]; [A; D; E]] /\
  lists (dragOnto A D 2 board) = [[B; C]; [D; A; E]].
Proof. vm_compute. split; reflexivity. Qed.

(** C5 fails as stated: one pointer-move over [C] does not end on
    [[B,C,A]]. *)
Lemma same_list_reorder_counterexample :
  ~ (forall n, (1 <= n)%nat -> lists (dragOnto A C n column) = [[B; C; A]]).
Proof.
  intros Hall. specialize (Hall 1%nat (le_n 1)).
  vm_compute in Hall. discriminate Hall.
Qed.

(** C5 (amended): in [[A,B,C]], capturing [A], one pointer-move over [C]
    and a release give [[B,A,C]]: [A] takes the slot [C] holds once [A] is
    detached, and [C] shifts right. *)
Theorem same_list_reorder_single_frame :
  lists (dragOnto A C 1 column) = [[B; A; C]].
Proof. vm_compute. reflexivity. Qed.

(** C6 (as the code has it): a frame over an element without an id, or
    with an id no list holds, is not skipped.  After a frame over no
    element it moves the preview: [A] leaves the front of [[A,D,E]] and
    lands before the last item. *)
Theorem unresolved_frame_moves_preview :
  targetIndex offTarget = -1 /\
  lists offTarget = [[B; C]; [A; D; E]] /\
  lists (step offTarget (overElement unbound)) = [[B; C]; [D; A; E]] /\
  lists (step offTarget (overElement foreign)) = [[B; C]; [D; A; E]].
Proof. vm_compute. repeat split. Qed.

(** The two gestures of C7 on the board: [A] dropped on [D], then [B]
    pressed and released over nothing. *)
Lemma commit_refreshes_baseline_witness :
  lists (step hoveringD MouseUp) = lists hoveringD /\
  lists
    (step
       (run (tracking [(None, 0, 0)])
          (step (step hoveringD MouseUp)
             (MouseDown (HTMLElement (Some (el B))) 0 0)))
       MouseUp)
  = lists (step hoveringD MouseUp).
Proof.
  assert (Hu : onMouseup hoveringD = true) by (vm_compute; reflexivity).
  assert (Hg : dragging hoveringD
               = Some {| ghost_id := Some "A"; inBody := true |})
    by (vm_compute; reflexivity).
  assert (He : elem hoveringD = Some (el A)) by (vm_compute; reflexivity).
  assert (Hti : targetIndex hoveringD <> -1) by (vm_compute; discriminate).
  destruct (commit_refreshes_baseline hoveringD _ _ Hu Hg eq_refl He Hti)
    as ((Hl & _) & Hnext & _).
  split; [exact Hl|].
  refine (proj1 (Hnext (el B) 0 0 [(None, 0, 0)] _ _)).
  - vm_compute. discriminate.
  - vm_compute. reflexivity.
Defined.

(** C8 (as the code has it): a pointer-down during a session is not
    ignored.  The guard [if (!originalItem)] keeps the detached item and
    the collection, but everything in front of and behind it runs again.
    With [A] detached from [[A,B,C]], a press on [C] overwrites the source
    index, the tracked element, the ghost and the start coordinates; a
    press on the background sets [elem] to [null], after which the release
    returns at its guard and the session does not end. *)
Theorem pointer_down_during_session_not_ignored :
  (originalItem (run [down A] (mounted column)) = Some A /\
   originalIndex (run [down A] (mounted column)) = 0 /\
   elem (run [down A] (mounted column)) = Some (el A) /\
   dragging (run [down A] (mounted column))
   = Some {| ghost_id := Some "A"; inBody := true |} /\
   startX (run [down A] (mounted column)) = 0) /\
  (originalItem
     (run [down A; MouseDown (HTMLElement (Some (el C))) 7 9] (mounted column))
   = Some A /\
   lists
     (run [down A; MouseDown (HTMLElement (Some (el C))) 7 9] (mounted column))
   = [[B; C]] /\
   originalIndex
     (run [down A; MouseDown (HTMLElement (Some (el C))) 7 9] (mounted column))
   = 1 /\
   elem
     (run [down A; MouseDown (HTMLElement (Some (el C))) 7 9] (mounted column))
   = Some (el C) /\
   dragging
     (run [down A; MouseDown (HTMLElement (Some (el C))) 7 9] (mounted column))
   = Some {| ghost_id := Some "C"; inBody := true |} /\
   startX
     (run [down A; MouseDown (HTMLElement (Some (el C))) 7 9] (mounted column))
   = 7) /\
  (elem (run [down A; MouseDown (HTMLElement None) 0 0] (mounted column))
   = None /\
   run [down A; MouseDown (HTMLElement None) 0 0; MouseUp] (mounted column)
   = run [down A; MouseDown (HTMLElement None) 0 0] (mounted column) /\
   originalItem
     (run [down A; MouseDown (HTMLElement None) 0 0; MouseUp] (mounted column))
   = Some A /\
   onMouseup
     (run [down A; MouseDown (HTMLElement None) 0 0; MouseUp] (mounted column))
   = true).
Proof. vm_compute. repeat split. Qed.

(** C9 (as the code has it): a second pointer-move over the same hovered
    item is not a no-op.  With [A] previewed at [(1,0)], a frame over [D]
    resolves [D] at index [1], removes the preview and inserts [A] at [1],
    behind [D]. *)
Theorem repeated_frame_shifts_preview :
  addedPreview hoveringD = Some {| Preview.list := 1; Preview.target := 0 |} /\
  lists hoveringD = [[B; C]; [A; D; E]] /\
  lists (step hoveringD (over D)) = [[B; C]; [D; A; E]] /\
  lists (step (step hoveringD (over D)) (over D)) = [[B; C]; [A; D; E]].
Proof. vm_compute. repeat split. Qed.

(** After mount and unmount, a press on [A] still captures it. *)
Lemma mousedown_listener_survives_unmount_witness :
  onMousedown (run [Unmounted] (mounted board)) = true /\
  exists s',
    dispatch (MouseDown (HTMLElement (Some (el A))) 0 0)
      (step (mounted board) Unmounted)
    = Normal tt s' /\
    (exists it, originalItem s' = Some it) /\
    (totalItems (lists s') + 1 = totalItems (lists (mounted board)))%nat /\
    onMousemove s' = true /\ onMouseup s' = true.
Proof.
  destruct (@mousedown_listener_survives_unmount Card.t _)
    as (_ & Hkeep & Hcapture).
  split.
  - apply (Hkeep [Unmounted] (mounted board)). vm_compute. reflexivity.
  - apply (Hcapture (mounted board) (el A) 0 0 0 0); vm_compute; reflexivity.
Defined.

End Scenarios.

(** * Beyond the claims *)

(** ** Positions around a splice *)

Section SpliceFacts.

Context {A : Type}.
Implicit Types (l : list A) (x y : A) (i j : Z).

Lemma splice_delete_eq l i x :
  JsArray.get l i = Some x ->
  JsArray.splice l i 1 [] = take (Z.to_nat i) l ++ drop (S (Z.to_nat i)) l.
Proof.
  intros Hg. pose proof (get_lt _ _ _ Hg) as Hi.
  unfold JsArray.splice, JsArray.relativeStart.
  destruct (i <? 0) eqn:E; [apply Z.ltb_lt in E; lia|].
  simpl. rewrite (Z.min_l i) by lia.
  replace (Z.to_nat (i + Z.min (Z.max 1 0) (Z.of_nat (length l) - i)))
    with (S (Z.to_nat i)) by lia.
  reflexivity.
Qed.

Lemma splice_insert_eq l i y :
  0 <= i <= Z.of_nat (length l) ->
  JsArray.splice l i 0 [y] = take (Z.to_nat i) l ++ y :: drop (Z.to_nat i) l.
Proof.
  intros Hi. unfold JsArray.splice, JsArray.relativeStart.
  destruct (i <? 0) eqn:E; [apply Z.ltb_lt in E; lia|].
  simpl. rewrite (Z.min_l i) by lia.
  replace (Z.to_nat (i + Z.min (Z.max 0 0) (Z.of_nat (length l) - i)))
    with (Z.to_nat i) by lia.
  reflexivity.
Qed.

Lemma get_nat l i : 0 <= i -> JsArray.get l i = l !! Z.to_nat i.
Proof.
  intros Hi. unfold JsArray.get.
  destruct (i <? 0) eqn:E; [apply Z.ltb_lt in E; lia|reflexivity].
Qed.

(** Taking an element out and putting it back at the same index. *)
Lemma splice_delete_insert l i x :
  JsArray.get l i = Some x ->
  JsArray.splice (JsArray.splice l i 1 []) i 0 [x] = l.
Proof.
  intros Hg. pose proof (get_lt _ _ _ Hg) as Hi.
  pose proof (splice_delete_length l i x Hg) as Hlen.
  rewrite splice_insert_eq by lia.
  rewrite (splice_delete_eq l i x Hg).
  apply get_Some_lookup in Hg as [_ Hl].
  rewrite take_app_le by (rewrite length_take; lia).
  rewrite take_take, Nat.min_id.
  rewrite drop_app_ge by (rewrite length_take; lia).
  rewrite length_take, Nat.min_l by lia.
  rewrite Nat.sub_diag. simpl.
  now apply take_drop_middle.
Qed.

Lemma splice_delete_get_before l i j x :
  JsArray.get l i = Some x -> 0 <= j < i ->
  JsArray.get (JsArray.splice l i 1 []) j = JsArray.get l j.
Proof.
  intros Hg Hj. pose proof (get_lt _ _ _ Hg) as Hi.
  rewrite (splice_delete_eq l i x Hg), !get_nat by lia.
  rewrite lookup_app_l by (rewrite length_take; lia).
  apply lookup_take_lt. lia.
Qed.

Lemma splice_delete_get_after l i j x :
  JsArray.get l i = Some x -> i <= j ->
  JsArray.get (JsArray.splice l i 1 []) j = JsArray.get l (j + 1).
Proof.
  intros Hg Hj. pose proof (get_lt _ _ _ Hg) as Hi.
  rewrite (splice_delete_eq l i x Hg), !get_nat by lia.
  rewrite lookup_app_r by (rewrite length_take; lia).
  rewrite length_take, Nat.min_l by lia.
  rewrite lookup_drop. f_equal. lia.
Qed.

Lemma splice_insert_get_before l i j y :
  0 <= j < i -> i <= Z.of_nat (length l) ->
  JsArray.get (JsArray.splice l i 0 [y]) j = JsArray.get l j.
Proof.
  intros Hj Hi. rewrite splice_insert_eq, !get_nat by lia.
  rewrite lookup_app_l by (rewrite length_take; lia).
  apply lookup_take_lt. lia.
Qed.

Lemma splice_insert_get_after l i j y :
  0 <= i <= j -> i <= Z.of_nat (length l) ->
  JsArray.get (JsArray.splice l i 0 [y]) (j + 1) = JsArray.get l j.
Proof.
  intros Hj Hi. rewrite splice_insert_eq, !get_nat by lia.
  rewrite lookup_app_r by (rewrite length_take; lia).
  rewrite length_take, Nat.min_l by lia.
  replace (Z.to_nat (j + 1) - Z.to_nat i)%nat
    with (S (Z.to_nat j - Z.to_nat i)) by lia.
  simpl. rewrite lookup_drop. f_equal. lia.
Qed.

Lemma set_set (ls : list (list A)) i (a b : list A) :
  JsArray.set (JsArray.set ls i a) i b = JsArray.set ls i b.
Proof.
  unfold JsArray.set. destruct (i <? 0); [reflexivity|].
  apply list_insert_insert_eq.
Qed.

Lemma set_same (ls : list (list A)) i (a : list A) :
  JsArray.get ls i = Some a -> JsArray.set ls i a = ls.
Proof.
  intros Hg. apply get_Some_lookup in Hg as [Hi Hl].
  unfold JsArray.set. destruct (i <? 0); [reflexivity|].
  now apply list_insert_id.
Qed.

End SpliceFacts.

(** ** The state between gestures *)

Section RestFacts.

Context {T : Type} `{IDType T}.
Implicit Types (s : State T) (ls : list (list T)).

(** A pointer-down never writes the target indices or the preview
    record. *)
Lemma mousedown_targets tgt x y s :
  targetIndex (after (mousedown tgt x y s)) = targetIndex s /\
  targetListIndex (after (mousedown tgt x y s)) = targetListIndex s /\
  addedPreview (after (mousedown tgt x y s)) = addedPreview s.
Proof.
  unfold mousedown, bind, read, write, ret.
  destruct tgt as [|[el|]]; simpl; [now repeat split| |now repeat split].
  destruct (scanOriginal_writes (getAttribute_id el) (lists s) 0
              (set_dragging (Some (cloneNode el)) (set_elem (Some el) s)))
    as (oi & oli & ->).
  simpl. destruct (originalItem s) as [it|]; simpl; [now repeat split|].
  unfold defined, spliceList, bind, read, write, ret, throw, jsonCopyItem.
  simpl.
  destruct (JsArray.get (lists s) oli) as [host|] eqn:Hh; simpl;
    [|now repeat split].
  destruct (JsArray.get host oi) as [it|]; simpl; [|now repeat split].
  rewrite Hh. simpl. now repeat split.
Qed.

(** A pointer-down that finds nothing leaves [originalIndex] at [-1]. *)
Lemma mousedown_unknown_index el x y s :
  originalIndex s = -1 ->
  locate (getAttribute_id el) (lists s) = None ->
  originalIndex (after (mousedown (HTMLElement (Some el)) x y s)) = -1 \/
  originalItem (after (mousedown (HTMLElement (Some el)) x y s)) <> None.
Proof.
  intros Hoi Hloc.
  unfold mousedown, bind, read, write, ret. simpl.
  rewrite scanOriginal_locate. fold (locate (getAttribute_id el) (lists s)).
  rewrite Hloc.
  destruct (originalItem s) as [it|] eqn:Ho.
  - right. destruct (lists s); simpl; rewrite Ho; simpl; congruence.
  - left. unfold defined, spliceList, jsonCopyItem, bind, read, write, ret,
      throw.
    destruct (lists s) as [|l ls] eqn:El; simpl; rewrite Ho; simpl;
      rewrite ?El.
    + destruct (JsArray.get [] (originalListIndex s)) as [host|] eqn:Eh;
        simpl; [|assumption].
      unfold JsArray.get in Eh. destruct (originalListIndex s <? 0);
        [discriminate|]. now rewrite lookup_nil in Eh.
    + destruct (JsArray.get (l :: ls) (originalListIndex s)) as [host|];
        simpl; [|reflexivity].
      destruct (JsArray.get host (-1)) as [it|] eqn:Eg; simpl; [|reflexivity].
      discriminate Eg.
Qed.

(** A release that runs to the end resets every session variable. *)
Lemma handleMouseUp_resets s :
  after (handleMouseUp s) = s \/
  (let s' := after (handleMouseUp s) in
   originalItem s' = None /\ dragging s' = None /\
   originalIndex s' = -1 /\ originalListIndex s' = -1 /\
   targetListIndex s' = -1 /\ targetIndex s' = -1 /\
   addedPreview s' = None /\
   onMousemove s' = false /\ onMouseup s' = false).
Proof.
  unfold handleMouseUp, bind, read, write, ret, removeChild, throw. simpl.
  destruct (dragging s) as [g|]; [|now left].
  destruct (elem s) as [e|]; [|now left].
  destruct (inBody g); [|now left].
  right. simpl. destruct (targetIndex s =? -1); simpl; now repeat split.
Qed.

Lemma useDragDrop_atRest items : atRest (useDragDrop items).
Proof. intros _. now repeat split. Qed.

Lemma step_atRest s ev : whenIdle s -> atRest s -> atRest (step s ev).
Proof.
  intros I R. unfold step. destruct ev as [| |tgt x y|hit x y|]; simpl.
  - exact R.
  - exact R.
  - unfold dispatch, bind, read, ret. simpl.
    destruct (onMousedown s); [|exact R].
    destruct (originalItem s) as [it|] eqn:Ho.
    + destruct (mousedown_active tgt x y s it Ho) as (s' & -> & _ & _ & Hs & _).
      simpl. intros Hn. congruence.
    + destruct (R Ho) as (Roi & Rtl & Rti & Rp).
      destruct (mousedown_targets tgt x y s) as (Mti & Mtl & Mp).
      intros Hn. rewrite Mti, Mtl, Mp.
      repeat split; try assumption.
      destruct tgt as [|[el|]]; [exact Roi| |exact Roi].
      destruct (locate (getAttribute_id el) (lists s)) as [[li oi]|] eqn:Hloc.
      * destruct (mousedown_captures el x y s li oi Ho Hloc)
          as (host & it & s' & _ & _ & E & _ & Hit & _).
        rewrite E in Hn. simpl in Hn. congruence.
      * destruct (mousedown_unknown_index el x y s Roi Hloc); [assumption|].
        contradiction.
  - unfold dispatch, bind, read, ret. simpl.
    destruct (onMousemove s) eqn:Em; [|exact R].
    pose proof (handleMouseMove_kept hit x y s) as (_ & _ & _ & Ko & _).
    intros Hn. rewrite Ko in Hn. destruct (I Hn) as (_ & Hm & _). congruence.
  - unfold dispatch, bind, read, ret. simpl.
    destruct (onMouseup s); [|exact R].
    destruct (handleMouseUp_resets s)
      as [->|(_ & _ & Hoi & _ & Htl & Hti & Hp & _)]; [exact R|].
    intros _. now repeat split.
Qed.

Lemma run_atRest evs s : whenIdle s -> atRest s -> atRest (run evs s).
Proof.
  revert s. induction evs as [|ev evs IH]; intros s I R; simpl; [exact R|].
  apply IH; [now apply step_whenIdle|now apply step_atRest].
Qed.

End RestFacts.

(** ** Frames of a session *)

Section FrameFacts.

Context {T : Type} `{IDType T}.
Implicit Types (s : State T) (ls : list (list T)).

Lemma no_hit_inSession x y s it total :
  inSession s it total -> inSession (step s (MouseMove None x y)) it total.
Proof.
  intros (Ho & [g Hg] & Hm & Hp & _ & Hc).
  unfold step, dispatch, bind, read. simpl. rewrite Hm.
  rewrite (handleMouseMove_no_hit x y s g Hg). simpl.
  repeat split; eauto; try (intros Hne; now contradiction Hne).
Qed.

Lemma resolved_inSession tgt x y s it total :
  inSession s it total -> resolves (Some tgt) s ->
  inSession (step s (MouseMove (Some tgt) x y)) it total.
Proof.
  intros (Ho & [g Hg] & Hm & Hp & _ & Hc) [Hid Hloc].
  destruct (locate (getAttribute_id tgt) (lists s)) as [[tl ti]|] eqn:El;
    [|contradiction].
  destruct (handleMouseMove_resolved tgt x y s it g tl ti Hg Ho Hid El Hp)
    as (s' & E & Ha & _ & _ & Hp' & Hc').
  pose proof (handleMouseMove_kept (Some tgt) x y s) as (_ & _ & Kg & Ko & _ & Km & _).
  unfold step, dispatch, bind, read. simpl. rewrite Hm.
  rewrite E in *. simpl in *.
  repeat split; try congruence.
  - exists g. congruence.
  - rewrite Ha, Hc'. destruct (addedPreview s); lia.
Qed.

Lemma frames_inSession frames s it total :
  inSession s it total -> resolvedFrames frames s ->
  inSession (run (tracking frames) s) it total.
Proof.
  revert s. induction frames as [|[[hit x] y] frames IH]; intros s I R;
    simpl in *; [exact I|].
  destruct R as [Rh Rr]. apply IH; [|exact Rr].
  destruct hit as [tgt|];
    [now apply resolved_inSession|now apply no_hit_inSession].
Qed.

(** The collection a resolved frame leaves, written out: the preview is
    spliced out, then the detached item is spliced in at the resolved
    position, which lies inside the target list or just past its end. *)
Lemma handleMouseMove_resolved_lists tgt x y s it g tl ti :
  dragging s = Some g -> originalItem s = Some it ->
  noId (getAttribute_id tgt) = false ->
  locate (getAttribute_id tgt) (lists s) = Some (tl, ti) ->
  previewHolds s it ->
  exists h2,
    JsArray.get (withoutPreview s) tl = Some h2 /\
    0 <= ti <= Z.of_nat (length h2) /\
    lists (after (handleMouseMove (Some tgt) x y s))
    = JsArray.set (withoutPreview s) tl (JsArray.splice h2 ti 0 [it]).
Proof.
  intros Hg Hit Hid Hloc Hprev.
  destruct (locate_defined _ _ _ _ Hloc) as (hostT & xT & HhT & HgT & _).
  pose proof (get_lt _ _ _ HgT) as Hti.
  assert (R : (match addedPreview s with
               | Some p => spliceList (Preview.list p) (Preview.target p) 1 []
               | None => fun s0 => Normal tt s0
               end) (set_target ti tl s)
              = Normal tt (set_lists (withoutPreview s) (set_target ti tl s)) /\
              exists h2, JsArray.get (withoutPreview s) tl = Some h2 /\
                         0 <= ti <= Z.of_nat (length h2)).
  { unfold previewHolds, withoutPreview in *.
    destruct (addedPreview s) as [[pl pt]|]; simpl in *.
    - destruct Hprev as (hostP & HhP & HgP).
      pose proof (splice_delete_length hostP pt it HgP) as Hlen.
      unfold spliceList, bind, read, defined, write, ret. simpl.
      rewrite HhP. split; [reflexivity|].
      destruct (Z.eq_dec pl tl) as [->|Hne].
      + exists (JsArray.splice hostP pt 1 []).
        assert (hostP = hostT) by congruence. subst hostP.
        split; [eapply get_set_eq; eassumption|lia].
      + exists hostT. rewrite get_set_ne by assumption. split; [assumption|lia].
    - split; [now destruct s|]. exists hostT. split; [assumption|lia]. }
  destruct R as (E2 & h2 & Hh2 & Hr).
  exists h2. split; [exact Hh2|]. split; [exact Hr|].
  unfold handleMouseMove, bind, read, write, ret. rewrite Hg.
  rewrite scanTarget_locate, Hid. fold (locate (getAttribute_id tgt) (lists s)).
  rewrite Hloc. simpl. rewrite E2. simpl. rewrite Hit.
  unfold spliceList, bind, read, defined, write, ret. simpl. rewrite Hh2.
  reflexivity.
Qed.

End FrameFacts.

(** ** Events and scans *)

Section ScanFacts.

Context {T : Type} `{IDType T}.
Implicit Types (s : State T) (ls : list (list T)).

Lemma run_app evs1 evs2 s : run (evs1 ++ evs2) s = run evs2 (run evs1 s).
Proof. unfold run. apply fold_left_app. Qed.

(** Without the move listener no frame is delivered. *)
Lemma tracking_undelivered frames s :
  onMousemove s = false -> run (tracking frames) s = s.
Proof.
  intros Hm. induction frames as [|[[hit x] y] frames IH]; simpl;
    [reflexivity|].
  assert (E : step s (MouseMove hit x y) = s).
  { unfold step, dispatch, bind, read, ret. simpl. now rewrite Hm. }
  rewrite E. exact IH.
Qed.

(** [findIndex] returns the first match. *)
Lemma findIndexFrom_first {A} (p : A -> bool) (arr : list A) i k f :
  0 <= i -> JsArray.findIndexFrom p arr i <> -1 ->
  0 <= k < JsArray.findIndexFrom p arr i - i ->
  JsArray.get arr k = Some f -> p f = false.
Proof.
  revert i k. induction arr as [|a arr IH]; intros i k Hi; simpl;
    [congruence|].
  destruct (p a) eqn:Hp; intros Hne Hk Hg; [lia|].
  destruct (Z.eq_dec k 0) as [->|Hk0].
  - unfold JsArray.get in Hg. simpl in Hg. congruence.
  - apply (IH (i + 1) (k - 1)); [lia|assumption|lia|].
    replace k with ((k - 1) + 1) in Hg by lia.
    now rewrite get_cons_succ in Hg by lia.
Qed.

(** [locate] returns the first list with a match, and its first match. *)
Lemma locateFrom_first id entries i li oi :
  0 <= i -> locateFrom id entries i = Some (li, oi) ->
  i <= li /\
  (forall j l f, 0 <= j < li - i -> JsArray.get entries j = Some l ->
                 f ∈ l -> sameId id f = false) /\
  (forall host k f, JsArray.get entries (li - i) = Some host ->
                    0 <= k < oi -> JsArray.get host k = Some f ->
                    sameId id f = false).
Proof.
  revert i. induction entries as [|l0 entries IH]; intros i Hi; simpl;
    [discriminate|].
  destruct (JsArray.findIndex (sameId id) l0 =? -1) eqn:E.
  - apply Z.eqb_eq, findIndex_none in E. intros Hloc.
    destruct (IH (i + 1)) as (Hle & Hlists & Hitems); [lia|exact Hloc|].
    split; [lia|]. split.
    + intros j l f Hj Hg Hf. destruct (Z.eq_dec j 0) as [->|Hj0].
      * unfold JsArray.get in Hg. simpl in Hg. injection Hg as <-.
        apply (find_none _ _ E). now apply list_elem_of_In.
      * apply (Hlists (j - 1) l f); [lia| |assumption].
        replace j with ((j - 1) + 1) in Hg by lia.
        now rewrite get_cons_succ in Hg by lia.
    + intros host k f Hh. apply Hitems.
      replace (li - i) with ((li - (i + 1)) + 1) in Hh by lia.
      now rewrite get_cons_succ in Hh by lia.
  - intros [= <- <-]. apply Z.eqb_neq in E. split; [lia|]. split.
    + intros j l f Hj. lia.
    + intros host k f Hh Hk Hg. rewrite Z.sub_diag in Hh.
      unfold JsArray.get in Hh. simpl in Hh. injection Hh as <-.
      apply (findIndexFrom_first (sameId id) l0 0 k f); [lia|exact E| |exact Hg].
      unfold JsArray.findIndex in Hk. lia.
Qed.

End ScanFacts.

(** ** Further properties of the handlers *)

Section Further.

Context {T : Type} `{IDType T}.
Implicit Types (s : State T) (items : list (list T)).

(** X1: with nothing detached, a pointer-down whose target is not an
    element, or is outside every drag handle, starts nothing: the pointer-
    moves and the release that follow are not even delivered, and the
    collection, the snapshot and the detached item stay as they were. *)
Theorem press_outside_handle_starts_nothing items history tgt x y frames :
  let s := run history (useDragDrop items) in
  originalItem s = None ->
  tgt = NotHTMLElement \/ tgt = HTMLElement None ->
  let r := run (MouseDown tgt x y :: tracking frames ++ [MouseUp]) s in
  r = step s (MouseDown tgt x y) /\
  lists r = lists s /\ startingLists r = startingLists s /\
  originalItem r = None.
Proof.
  intros s Hnone Htgt r.
  destruct (run_whenIdle history _ (useDragDrop_whenIdle items) Hnone)
    as (_ & Hm & Hu & _).
  fold s in Hm, Hu.
  set (s1 := step s (MouseDown tgt x y)).
  assert (S1 : onMousemove s1 = false /\ onMouseup s1 = false /\
               lists s1 = lists s /\ startingLists s1 = startingLists s /\
               originalItem s1 = None).
  { unfold s1, step, dispatch, bind, read, ret. simpl.
    destruct (onMousedown s); [|now repeat split].
    destruct Htgt as [->| ->]; unfold mousedown, bind, write, ret; simpl;
      now repeat split. }
  destruct S1 as (Hm1 & Hu1 & Hl1 & Hs1 & Ho1).
  assert (Er : r = s1).
  { unfold r. change (MouseDown tgt x y :: tracking frames ++ [MouseUp])
      with ([MouseDown tgt x y] ++ tracking frames ++ [MouseUp]).
    rewrite !run_app. simpl. fold s1.
    rewrite (tracking_undelivered frames s1 Hm1).
    unfold step, dispatch, bind, read, ret. simpl. now rewrite Hu1. }
  rewrite Er. now repeat split.
Qed.

(** X2: when some item carries the identifier, the scan of [mousedown]
    records the first list, in order, that holds such an item and the
    index of the first such item in it; with a non-empty identifier the
    scan of [handleMouseMove] resolves the same position. *)
Theorem scan_records_first_match id (ls : list (list T)) s :
  (exists l f, l ∈ ls /\ f ∈ l /\ sameId id f = true) ->
  let s' := scanOriginal id ls 0 s in
  (exists host it,
      JsArray.get ls (originalListIndex s') = Some host /\
      JsArray.get host (originalIndex s') = Some it /\
      sameId id it = true /\
      (forall j l f, 0 <= j < originalListIndex s' ->
                     JsArray.get ls j = Some l -> f ∈ l ->
                     sameId id f = false) /\
      (forall k f, 0 <= k < originalIndex s' ->
                   JsArray.get host k = Some f -> sameId id f = false)) /\
  (noId id = false ->
   targetListIndex (scanTarget id ls 0 s) = originalListIndex s' /\
   targetIndex (scanTarget id ls 0 s) = originalIndex s').
Proof.
  intros (l & f & Hl & Hf & Hp) s'.
  destruct (locate id ls) as [[li oi]|] eqn:Hloc.
  2:{ rewrite (proj1 (locate_none id ls) Hloc l f Hl Hf) in Hp.
      discriminate. }
  assert (Es : s' = set_original oi li s).
  { unfold s'. rewrite scanOriginal_locate. fold (locate id ls).
    now rewrite Hloc. }
  rewrite Es. simpl.
  destruct (locate_defined _ _ _ _ Hloc) as (host & it & Hh & Hg & Hit).
  destruct (locateFrom_first id ls 0 li oi) as (_ & Hlists & Hitems);
    [lia|exact Hloc|].
  rewrite Z.sub_0_r in *. split.
  - exists host, it. repeat split; try assumption.
    intros k f0 Hk Hgk. exact (Hitems host k f0 Hh Hk Hgk).
  - intros Hid. rewrite scanTarget_locate, Hid. fold (locate id ls).
    rewrite Hloc. now split.
Qed.

(** X3: a pointer-down that captures detaches the item the scan found,
    which carries the pressed element's id.  Its list keeps the items in
    front of it at their indices and moves the items behind it up by one;
    every other list is untouched. *)
Theorem capture_splices_found_item el x y s li oi :
  onMousedown s = true -> originalItem s = None ->
  locate (getAttribute_id el) (lists s) = Some (li, oi) ->
  exists s' host host' it,
    dispatch (MouseDown (HTMLElement (Some el)) x y) s = Normal tt s' /\
    JsArray.get (lists s) li = Some host /\
    JsArray.get host oi = Some it /\
    originalItem s' = Some it /\
    sameId (getAttribute_id el) it = true /\
    JsArray.get (lists s') li = Some host' /\
    (forall k, 0 <= k < oi -> JsArray.get host' k = JsArray.get host k) /\
    (forall k, oi <= k -> JsArray.get host' k = JsArray.get host (k + 1)) /\
    (forall j, j <> li -> JsArray.get (lists s') j = JsArray.get (lists s) j).
Proof.
  intros Hon Hnone Hloc.
  destruct (locate_defined _ _ _ _ Hloc) as (host0 & it0 & Hh0 & Hg0 & Hp0).
  destruct (mousedown_captures el x y s li oi Hnone Hloc)
    as (host & it & s' & Hh & Hg & E & Hl & Hit & _).
  assert (host0 = host) by congruence. subst host0.
  assert (it0 = it) by congruence. subst it0.
  exists s', host, (JsArray.splice host oi 1 []), it.
  split. { unfold dispatch, bind, read. rewrite Hon. exact E. }
  repeat split; try assumption.
  - rewrite Hl. eapply get_set_eq; eassumption.
  - intros k Hk. eapply splice_delete_get_before; eassumption.
  - intros k Hk. eapply splice_delete_get_after; eassumption.
  - intros j Hj. rewrite Hl. apply get_set_ne. congruence.
Qed.

(** X4: a frame over the element of an item that the scan resolves at
    [(tl, ti)], in a session whose preview record (if any) points at the
    detached item, returns normally; the target indices and the preview
    record become [(tl, ti)] and the collection holds the detached item at
    exactly that position. *)
Theorem resolved_frame_places_item tgt x y s it g tl ti :
  dragging s = Some g -> originalItem s = Some it ->
  previewHolds s it ->
  noId (getAttribute_id tgt) = false ->
  locate (getAttribute_id tgt) (lists s) = Some (tl, ti) ->
  exists s' host,
    handleMouseMove (Some tgt) x y s = Normal tt s' /\
    targetListIndex s' = tl /\ targetIndex s' = ti /\
    addedPreview s' = Some {| Preview.list := tl; Preview.target := ti |} /\
    JsArray.get (lists s') tl = Some host /\
    JsArray.get host ti = Some it.
Proof.
  intros Hg Hit Hprev Hid Hloc.
  destruct (handleMouseMove_resolved tgt x y s it g tl ti Hg Hit Hid Hloc Hprev)
    as (s' & E & Ha & Htl & Hti & Hp' & _).
  unfold previewHolds in Hp'. rewrite Ha in Hp'. simpl in Hp'.
  destruct Hp' as (host & Hh & Hi).
  exists s', host. now repeat split.
Qed.

End Further.

(** ** Items as a multiset *)

Section Multiset.

Context {T : Type} `{IDType T}.
Implicit Types (s : State T) (ls : list (list T)) (l : list T).

Lemma splice_delete_perm l i x :
  JsArray.get l i = Some x -> x :: JsArray.splice l i 1 [] ≡ₚ l.
Proof.
  intros Hg. rewrite (splice_delete_eq l i x Hg).
  apply get_Some_lookup in Hg as [_ Hl].
  rewrite <- (take_drop_middle l (Z.to_nat i) x Hl) at 3.
  apply Permutation_middle.
Qed.

Lemma splice_insert_perm l i x : JsArray.splice l i 0 [x] ≡ₚ x :: l.
Proof.
  unfold JsArray.splice. simpl.
  set (n := JsArray.relativeStart (Z.of_nat (length l)) i).
  replace (Z.to_nat (n + Z.min (Z.max 0 0) (Z.of_nat (length l) - n)))
    with (Z.to_nat n).
  - rewrite <- Permutation_middle. now rewrite take_drop.
  - unfold n, JsArray.relativeStart.
    destruct (i <? 0) eqn:E; [apply Z.ltb_lt in E|apply Z.ltb_ge in E]; lia.
Qed.

Lemma concat_set_perm ls li host l' :
  JsArray.get ls li = Some host ->
  concat (JsArray.set ls li l') ++ host ≡ₚ concat ls ++ l'.
Proof.
  intros Hg. apply get_Some_lookup in Hg as [Hi Hl].
  unfold JsArray.set.
  destruct (li <? 0) eqn:E; [apply Z.ltb_lt in E; lia|].
  rewrite <- (take_drop_middle ls (Z.to_nat li) host Hl) at 2.
  rewrite insert_take_drop by (eapply lookup_lt_Some; eassumption).
  rewrite !concat_app. simpl.
  rewrite <- !app_assoc.
  apply Permutation_app_head.
  rewrite (Permutation_app_comm host), <- !app_assoc.
  rewrite (Permutation_app_comm l'). rewrite <- !app_assoc.
  apply Permutation_app_head, Permutation_app_comm.
Qed.

(** Taking one item out of one list of the collection. *)
Lemma concat_delete_perm ls li host i x :
  JsArray.get ls li = Some host -> JsArray.get host i = Some x ->
  x :: concat (JsArray.set ls li (JsArray.splice host i 1 [])) ≡ₚ concat ls.
Proof.
  intros Hh Hx.
  pose proof (concat_set_perm ls li host (JsArray.splice host i 1 []) Hh) as P.
  pose proof (splice_delete_perm host i x Hx) as D.
  apply (Permutation_app_inv_r (JsArray.splice host i 1 [])).
  etransitivity; [|exact P].
  etransitivity; [apply (Permutation_middle _ _ x)|].
  now apply Permutation_app_head.
Qed.

(** Putting one item into one list of the collection. *)
Lemma concat_insert_perm ls li host i x :
  JsArray.get ls li = Some host ->
  concat (JsArray.set ls li (JsArray.splice host i 0 [x])) ≡ₚ x :: concat ls.
Proof.
  intros Hh.
  pose proof (concat_set_perm ls li host (JsArray.splice host i 0 [x]) Hh) as P.
  pose proof (splice_insert_perm host i x) as I.
  apply (Permutation_app_inv_r host).
  etransitivity; [exact P|].
  etransitivity; [apply Permutation_app_head; exact I|].
  symmetry. apply (Permutation_middle _ _ x).
Qed.

Lemma withoutPreview_perm s it :
  previewHolds s it ->
  concat (withoutPreview s)
    ++ match addedPreview s with Some _ => [it] | None => [] end
  ≡ₚ concat (lists s).
Proof.
  unfold previewHolds, withoutPreview.
  destruct (addedPreview s) as [[pl pt]|]; simpl.
  - intros (host & Hh & Hx). rewrite Hh.
    rewrite <- (concat_delete_perm (lists s) pl host pt it Hh Hx).
    now rewrite <- Permutation_cons_append.
  - intros _. now rewrite app_nil_r.
Qed.

Lemma no_hit_sameItems x y s it all :
  inSession s it (length all) -> sameItems s it all ->
  sameItems (step s (MouseMove None x y)) it all.
Proof.
  intros (_ & [g Hg] & Hm & _) P.
  unfold step, dispatch, bind, read. simpl. rewrite Hm.
  now rewrite (handleMouseMove_no_hit x y s g Hg).
Qed.

Lemma resolved_sameItems tgt x y s it all :
  inSession s it (length all) -> resolves (Some tgt) s ->
  sameItems s it all ->
  sameItems (step s (MouseMove (Some tgt) x y)) it all.
Proof.
  intros (Ho & [g Hg] & Hm & Hp & _) [Hid Hloc] P.
  destruct (locate (getAttribute_id tgt) (lists s)) as [[tl ti]|] eqn:El;
    [|contradiction].
  destruct (handleMouseMove_resolved tgt x y s it g tl ti Hg Ho Hid El Hp)
    as (s' & E & Ha & _).
  destruct (handleMouseMove_resolved_lists tgt x y s it g tl ti
              Hg Ho Hid El Hp) as (h2 & Hh2 & _ & Hl).
  rewrite E in Hl. simpl in Hl.
  unfold step, dispatch, bind, read. simpl. rewrite Hm, E. simpl.
  unfold sameItems in *. rewrite Ha, Hl, app_nil_r.
  rewrite (concat_insert_perm _ tl h2 ti it Hh2).
  rewrite <- P, <- (withoutPreview_perm s it Hp).
  destruct (addedPreview s).
  - now rewrite app_nil_r, <- Permutation_cons_append.
  - now rewrite app_nil_r, <- Permutation_cons_append.
Qed.

Lemma frames_sameItems frames s it all :
  inSession s it (length all) -> resolvedFrames frames s ->
  sameItems s it all ->
  sameItems (run (tracking frames) s) it all.
Proof.
  revert s. induction frames as [|[[hit x] y] frames IH]; intros s I R P;
    simpl in *; [exact P|].
  destruct R as [Rh Rr]. destruct hit as [tgt|].
  - apply IH; [now apply resolved_inSession|exact Rr|
               now apply resolved_sameItems].
  - apply IH; [now apply no_hit_inSession|exact Rr|
               now apply no_hit_sameItems].
Qed.

End Multiset.

(** ** Sessions from capture to release *)

Section SessionRuns.

Context {T : Type} `{IDType T}.
Implicit Types (s : State T) (items : list (list T)).

(** What a capture from rest sets up. *)
Lemma capture_inSession el x y s li oi :
  atRest s -> onMousedown s = true -> originalItem s = None ->
  locate (getAttribute_id el) (lists s) = Some (li, oi) ->
  let s1 := step s (MouseDown (HTMLElement (Some el)) x y) in
  exists it g,
    sameId (getAttribute_id el) it = true /\
    inSession s1 it (totalItems (lists s)) /\
    dragging s1 = Some g /\ inBody g = true /\ elem s1 = Some el /\
    onMouseup s1 = true /\ startingLists s1 = startingLists s /\
    targetListIndex s1 = -1 /\ targetIndex s1 = -1 /\
    addedPreview s1 = None.
Proof.
  intros R Hon Hnone Hloc s1.
  destruct (R Hnone) as (_ & Rtl & Rti & Rp).
  destruct (locate_defined _ _ _ _ Hloc) as (host0 & it0 & Hh0 & Hg0 & Hp0).
  destruct (mousedown_captures el x y s li oi Hnone Hloc)
    as (host & it & s' & Hh & Hg & E & Hl & Hit & Hs & He & (g & Hd & Hin)
        & _ & Hm & Hu & _).
  assert (host0 = host) by congruence. subst host0.
  assert (it0 = it) by congruence. subst it0.
  destruct (mousedown_targets (HTMLElement (Some el)) x y s) as (Mti & Mtl & Mp).
  rewrite E in Mti, Mtl, Mp. simpl in Mti, Mtl, Mp.
  assert (E1 : s1 = s').
  { unfold s1, step, dispatch, bind, read. simpl. rewrite Hon. now rewrite E. }
  rewrite E1. exists it, g.
  pose proof (totalItems_set (lists s) li host
                (JsArray.splice host oi 1 []) Hh) as Ht.
  pose proof (splice_delete_length host oi it Hg) as Hd1.
  repeat split; try congruence.
  - eauto.
  - unfold previewHolds. now rewrite Mp, Rp.
  - rewrite Mp, Rp, Hl. lia.
Qed.

(** The capture detaches one item and nothing else. *)
Lemma capture_sameItems el x y s li oi it :
  atRest s -> onMousedown s = true -> originalItem s = None ->
  locate (getAttribute_id el) (lists s) = Some (li, oi) ->
  originalItem (step s (MouseDown (HTMLElement (Some el)) x y)) = Some it ->
  sameItems (step s (MouseDown (HTMLElement (Some el)) x y)) it
    (concat (lists s)).
Proof.
  intros R Hon Hnone Hloc.
  destruct (R Hnone) as (_ & _ & _ & Rp).
  destruct (mousedown_captures el x y s li oi Hnone Hloc)
    as (host & it' & s' & Hh & Hg & E & Hl & Hit & _).
  destruct (mousedown_targets (HTMLElement (Some el)) x y s) as (_ & _ & Mp).
  rewrite E in Mp. simpl in Mp.
  assert (E1 : step s (MouseDown (HTMLElement (Some el)) x y) = s').
  { unfold step, dispatch, bind, read. simpl. rewrite Hon. now rewrite E. }
  rewrite E1. intros Ho. assert (it' = it) by congruence. subst it'.
  unfold sameItems. rewrite Mp, Rp, Hl.
  rewrite <- Permutation_cons_append.
  now apply concat_delete_perm.
Qed.

(** X5: from a capture on, as long as every frame is over no element or
    over the element of an item the scan finds, no item is lost, doubled or
    replaced: the items of the collection, with the detached item added
    while there is no preview, are the items the collection had before the
    capture, each as often; the preview record always points at the
    detached item. *)
Theorem tracking_conserves_items items history el x y frames li oi :
  let s := run history (useDragDrop items) in
  onMousedown s = true -> originalItem s = None ->
  locate (getAttribute_id el) (lists s) = Some (li, oi) ->
  let s1 := step s (MouseDown (HTMLElement (Some el)) x y) in
  resolvedFrames frames s1 ->
  let s2 := run (tracking frames) s1 in
  exists it,
    originalItem s2 = Some it /\ previewHolds s2 it /\
    concat (lists s2)
      ++ match addedPreview s2 with Some _ => [] | None => [it] end
    ≡ₚ concat (lists s).
Proof.
  intros s Hon Hnone Hloc s1 Hres s2.
  pose proof (run_atRest history _ (useDragDrop_whenIdle items)
                (useDragDrop_atRest items)) as R.
  fold s in R.
  destruct (capture_inSession el x y s li oi R Hon Hnone Hloc)
    as (it & g & _ & I1 & _).
  fold s1 in I1.
  pose proof (capture_sameItems el x y s li oi it R Hon Hnone Hloc
                (proj1 I1)) as P1.
  fold s1 in P1.
  destruct (frames_inSession frames s1 it _ I1 Hres) as (Ho & _ & _ & Hp & _).
  fold s2 in Ho, Hp. exists it. split; [exact Ho|]. split; [exact Hp|].
  exact (frames_sameItems frames s1 it _ I1 Hres P1).
Qed.

(** X6: such a gesture released over a target commits what the last
    frame left: the release does not change the collection, which holds
    the items it held before the gesture, each as often, is the new
    snapshot, and has the dragged item, carrying the pressed element's id,
    at the recorded target. *)
Theorem committed_drag_keeps_every_item items history el x y frames li oi :
  let s := run history (useDragDrop items) in
  onMousedown s = true -> originalItem s = None ->
  locate (getAttribute_id el) (lists s) = Some (li, oi) ->
  let s1 := step s (MouseDown (HTMLElement (Some el)) x y) in
  resolvedFrames frames s1 ->
  let s2 := run (tracking frames) s1 in
  targetIndex s2 <> -1 ->
  let r := step s2 MouseUp in
  lists r = lists s2 /\
  concat (lists r) ≡ₚ concat (lists s) /\
  startingLists r = lists r /\
  originalItem r = None /\
  exists p host it,
    addedPreview s2 = Some p /\
    JsArray.get (lists r) (Preview.list p) = Some host /\
    JsArray.get host (Preview.target p) = Some it /\
    sameId (getAttribute_id el) it = true.
Proof.
  intros s Hon Hnone Hloc s1 Hres s2 Hti r.
  pose proof (run_atRest history _ (useDragDrop_whenIdle items)
                (useDragDrop_atRest items)) as R.
  fold s in R.
  destruct (capture_inSession el x y s li oi R Hon Hnone Hloc)
    as (it & g & Hid & I1 & Hg & Hin & He & Hu & _).
  fold s1 in I1, Hg, He, Hu.
  pose proof (capture_sameItems el x y s li oi it R Hon Hnone Hloc
                (proj1 I1)) as P1.
  fold s1 in P1.
  pose proof (frames_sameItems frames s1 it _ I1 Hres P1) as P2.
  fold s2 in P2.
  destruct (frames_inSession frames s1 it _ I1 Hres)
    as (Ho & _ & _ & Hp & Hv & _).
  fold s2 in Ho, Hp, Hv.
  destruct (tracking_kept frames s1) as (_ & Ke & Kg & _ & _ & _ & Ku).
  fold s2 in Ke, Kg, Ku.
  assert (Hg2 : dragging s2 = Some g) by congruence.
  assert (He2 : elem s2 = Some el) by congruence.
  destruct (handleMouseUp_commit s2 g el Hg2 Hin He2 Hti)
    as (s3 & E3 & Hl3 & Hs3 & Ho3 & _).
  assert (Er : r = s3).
  { unfold r, step, dispatch, bind, read. simpl.
    replace (onMouseup s2) with true by congruence. now rewrite E3. }
  rewrite Er.
  unfold previewHolds in Hp. unfold sameItems in P2.
  destruct (addedPreview s2) as [p|] eqn:Ep; [|now contradiction (Hv Hti)].
  destruct Hp as (host & Hh & Hi).
  rewrite app_nil_r in P2.
  split; [exact Hl3|]. split; [now rewrite Hl3|].
  split; [congruence|]. split; [exact Ho3|].
  exists p, host, it. rewrite Hl3. now repeat split.
Qed.

(** X10: the first frame of a session that is over an element without an
    id, or with an id no list holds, throws: there is no target list yet,
    so [lists.value[-1].splice] reads a property of [undefined].  The
    state is left as the capture set it up. *)
Theorem first_unresolved_frame_throws items history el x y li oi tgt x' y' :
  let s := run history (useDragDrop items) in
  onMousedown s = true -> originalItem s = None ->
  locate (getAttribute_id el) (lists s) = Some (li, oi) ->
  let s1 := step s (MouseDown (HTMLElement (Some el)) x y) in
  noId (getAttribute_id tgt) = true \/
  locate (getAttribute_id tgt) (lists s1) = None ->
  dispatch (MouseMove (Some tgt) x' y') s1 = Throw TypeError s1.
Proof.
  intros s Hon Hnone Hloc s1 Hun.
  pose proof (run_atRest history _ (useDragDrop_whenIdle items)
                (useDragDrop_atRest items)) as R.
  fold s in R.
  destruct (capture_inSession el x y s li oi R Hon Hnone Hloc)
    as (it & g & _ & (Ho & _ & Hm & _) & Hg & _ & _ & _ & _ & Htl & _ & Hp).
  fold s1 in Ho, Hm, Hg, Htl, Hp.
  unfold dispatch, bind, read. rewrite Hm.
  unfold handleMouseMove, bind, read, write, ret. rewrite Hg.
  assert (Es : scanTarget (getAttribute_id tgt) (lists s1) 0 s1 = s1).
  { rewrite scanTarget_locate. fold (locate (getAttribute_id tgt) (lists s1)).
    destruct Hun as [-> | ->]; [reflexivity|].
    now destruct (noId (getAttribute_id tgt)). }
  rewrite Es, Hp, Ho. simpl.
  unfold spliceList, bind, read, defined, throw. rewrite Htl. reflexivity.
Qed.

End SessionRuns.

(** ** Where a frame puts the dragged item *)

Section Placement.

Context {T : Type} `{IDType T}.
Implicit Types (s : State T) (items : list (list T)).

(** The list a frame splices into, when the preview does not sit in that
    list in front of the resolved index. *)
Lemma withoutPreview_target_kept s it tl ti host x :
  previewHolds s it ->
  JsArray.get (lists s) tl = Some host -> JsArray.get host ti = Some x ->
  match addedPreview s with
  | None => True
  | Some p => Preview.list p <> tl \/ ti < Preview.target p
  end ->
  exists h2, JsArray.get (withoutPreview s) tl = Some h2 /\
             JsArray.get h2 ti = Some x.
Proof.
  intros Hprev Hh Hx Hpos. unfold previewHolds, withoutPreview in *.
  destruct (addedPreview s) as [[pl pt]|]; simpl in *; [|eauto].
  destruct Hprev as (hostP & HhP & HgP). rewrite HhP.
  destruct (Z.eq_dec pl tl) as [->|Hne].
  - assert (hostP = host) by congruence. subst hostP.
    destruct Hpos as [Hpos|Hpos]; [contradiction|].
    exists (JsArray.splice host pt 1 []).
    split; [eapply get_set_eq; eassumption|].
    pose proof (get_lt _ _ _ Hx).
    rewrite (splice_delete_get_before host pt ti it HgP) by lia. exact Hx.
  - exists host. rewrite get_set_ne by assumption. now split.
Qed.

(** X7: a frame that resolves the position of the preview itself (the
    pointer is over the element of the previewed item) takes the item out
    and puts it back: the collection and the preview record are
    unchanged. *)
Theorem frame_over_preview_changes_nothing tgt x y s it g p :
  dragging s = Some g -> originalItem s = Some it ->
  previewHolds s it -> addedPreview s = Some p ->
  noId (getAttribute_id tgt) = false ->
  locate (getAttribute_id tgt) (lists s)
    = Some (Preview.list p, Preview.target p) ->
  exists s',
    handleMouseMove (Some tgt) x y s = Normal tt s' /\
    lists s' = lists s /\ addedPreview s' = Some p.
Proof.
  intros Hg Hit Hprev Hp Hid Hloc. destruct p as [pl pt]. simpl in *.
  destruct (handleMouseMove_resolved tgt x y s it g pl pt Hg Hit Hid Hloc Hprev)
    as (s' & E & Ha & _).
  destruct (handleMouseMove_resolved_lists tgt x y s it g pl pt
              Hg Hit Hid Hloc Hprev) as (h2 & Hh2 & _ & Hl).
  rewrite E in Hl. simpl in Hl.
  exists s'. split; [exact E|]. split; [|exact Ha].
  unfold previewHolds in Hprev. rewrite Hp in Hprev. simpl in Hprev.
  destruct Hprev as (hostP & HhP & HgP).
  unfold withoutPreview in Hh2, Hl. rewrite Hp in Hh2, Hl. simpl in Hh2, Hl.
  rewrite HhP in Hh2, Hl.
  rewrite (get_set_eq _ _ _ _ HhP) in Hh2. injection Hh2 as <-.
  rewrite Hl, set_set, (splice_delete_insert hostP pt it HgP).
  now apply set_same.
Qed.

(** X8: when the preview is not in the target list in front of the
    hovered item (there is none, it is in another list, or it sits behind),
    a resolved frame gives the dragged item the hovered item's index and
    moves the hovered item one index up: it is displaced, not
    overwritten. *)
Theorem hovered_item_shifts_right tgt x y s it g tl ti :
  dragging s = Some g -> originalItem s = Some it ->
  previewHolds s it ->
  noId (getAttribute_id tgt) = false ->
  locate (getAttribute_id tgt) (lists s) = Some (tl, ti) ->
  match addedPreview s with
  | None => True
  | Some p => Preview.list p <> tl \/ ti < Preview.target p
  end ->
  exists s' host hovered host',
    handleMouseMove (Some tgt) x y s = Normal tt s' /\
    JsArray.get (lists s) tl = Some host /\
    JsArray.get host ti = Some hovered /\
    sameId (getAttribute_id tgt) hovered = true /\
    JsArray.get (lists s') tl = Some host' /\
    JsArray.get host' ti = Some it /\
    JsArray.get host' (ti + 1) = Some hovered.
Proof.
  intros Hg Hit Hprev Hid Hloc Hpos.
  destruct (locate_defined _ _ _ _ Hloc) as (host & hov & Hh & Hx & Hs).
  destruct (handleMouseMove_resolved tgt x y s it g tl ti Hg Hit Hid Hloc Hprev)
    as (s' & E & _).
  destruct (handleMouseMove_resolved_lists tgt x y s it g tl ti
              Hg Hit Hid Hloc Hprev) as (h2 & Hh2 & Hr & Hl).
  rewrite E in Hl. simpl in Hl.
  destruct (withoutPreview_target_kept s it tl ti host hov Hprev Hh Hx Hpos)
    as (h2' & Hh2' & Hx2).
  assert (h2' = h2) by congruence. subst h2'.
  exists s', host, hov, (JsArray.splice h2 ti 0 [it]).
  repeat split; try assumption.
  - rewrite Hl. eapply get_set_eq; eassumption.
  - now apply splice_insert_get.
  - rewrite splice_insert_get_after by lia. exact Hx2.
Qed.

(** X9: in a session whose preview record points at the detached item,
    when that preview sits in the target list in front of the hovered
    item, the index resolved before the preview is removed is one too
    high afterwards: the frame leaves the hovered item one index down and
    the dragged item behind it. *)
Theorem preview_in_front_leaves_item_behind tgt x y s it g p ti :
  dragging s = Some g -> originalItem s = Some it ->
  previewHolds s it -> addedPreview s = Some p ->
  noId (getAttribute_id tgt) = false ->
  locate (getAttribute_id tgt) (lists s) = Some (Preview.list p, ti) ->
  Preview.target p < ti ->
  exists s' host hovered host',
    handleMouseMove (Some tgt) x y s = Normal tt s' /\
    JsArray.get (lists s) (Preview.list p) = Some host /\
    JsArray.get host ti = Some hovered /\
    sameId (getAttribute_id tgt) hovered = true /\
    JsArray.get (lists s') (Preview.list p) = Some host' /\
    JsArray.get host' (ti - 1) = Some hovered /\
    JsArray.get host' ti = Some it.
Proof.
  intros Hg Hit Hprev Hp Hid Hloc Hlt. destruct p as [pl pt]. simpl in *.
  destruct (locate_defined _ _ _ _ Hloc) as (host & hov & Hh & Hx & Hs).
  destruct (handleMouseMove_resolved tgt x y s it g pl ti Hg Hit Hid Hloc Hprev)
    as (s' & E & _).
  destruct (handleMouseMove_resolved_lists tgt x y s it g pl ti
              Hg Hit Hid Hloc Hprev) as (h2 & Hh2 & Hr & Hl).
  rewrite E in Hl. simpl in Hl.
  unfold previewHolds in Hprev. rewrite Hp in Hprev. simpl in Hprev.
  destruct Hprev as (hostP & HhP & HgP).
  assert (hostP = host) by congruence. subst hostP.
  unfold withoutPreview in Hh2, Hl. rewrite Hp in Hh2, Hl. simpl in Hh2, Hl.
  rewrite Hh in Hh2, Hl.
  rewrite (get_set_eq _ _ _ _ Hh) in Hh2. injection Hh2 as <-.
  pose proof (get_lt _ _ _ HgP) as Hpt.
  exists s', host, hov, (JsArray.splice (JsArray.splice host pt 1 []) ti 0 [it]).
  repeat split; try assumption.
  - rewrite Hl, set_set. eapply get_set_eq; eassumption.
  - rewrite splice_insert_get_before by lia.
    rewrite (splice_delete_get_after host pt (ti - 1) it HgP) by lia.
    now replace (ti - 1 + 1) with ti by lia.
  - now apply splice_insert_get.
Qed.

End Placement.

(** ** Listeners *)

Section Listeners.

Context {T : Type} `{IDType T}.
Implicit Types (s : State T) (items : list (list T)).

(** X11: during a session, a pointer-down outside every drag handle sets
    [elem] to [null]; from then on a release returns at its first guard,
    however often it comes: the item stays detached, the collection stays
    as the last frame left it and the listeners stay attached. *)
Theorem press_outside_handle_blocks_release s it x y n :
  originalItem s = Some it -> onMousedown s = true ->
  let s1 := step s (MouseDown (HTMLElement None) x y) in
  elem s1 = None /\
  run (repeat MouseUp n) s1 = s1 /\
  originalItem s1 = Some it /\ lists s1 = lists s /\
  onMousemove s1 = onMousemove s /\ onMouseup s1 = onMouseup s.
Proof.
  intros Hit Hon s1.
  assert (E1 : s1 = set_elem None s).
  { unfold s1, step, dispatch, bind, read. simpl. now rewrite Hon. }
  assert (Eup : step s1 MouseUp = s1).
  { rewrite E1. unfold step, dispatch, bind, read, ret. simpl.
    destruct (onMouseup s); [|reflexivity].
    unfold handleMouseUp, bind, read, ret. simpl.
    now destruct (dragging s). }
  split; [now rewrite E1|]. split.
  - induction n as [|n IH]; simpl; [reflexivity|]. now rewrite Eup.
  - rewrite E1. now repeat split.
Qed.

(** X12: after the unmount hook has run, pointer-moves and releases reach
    no handler: whatever the state, and so also in the middle of a
    session, they leave it exactly as the unmount left it. *)
Theorem unmounted_ignores_moves_and_releases s evs :
  forallb pointerOnly evs = true ->
  run evs (step s Unmounted) = step s Unmounted.
Proof.
  set (u := step s Unmounted).
  assert (Hm : onMousemove u = false) by reflexivity.
  assert (Hu : onMouseup u = false) by reflexivity.
  clearbody u. induction evs as [|ev evs IH]; simpl; [reflexivity|].
  intros Hall. apply andb_prop in Hall as [Hev Hall].
  assert (E : step u ev = u).
  { destruct ev; try discriminate;
      unfold step, dispatch, bind, read, ret; simpl.
    - now rewrite Hm.
    - now rewrite Hu. }
  rewrite E. now apply IH.
Qed.

(** X13: in every state the composable reaches with nothing detached, all
    four indices are [-1], there is no preview record and the move and up
    listeners are off: a gesture never starts from what the one before it
    left in these variables. *)
Theorem rest_state_is_clean items history :
  let s := run history (useDragDrop items) in
  originalItem s = None ->
  originalIndex s = -1 /\ originalListIndex s = -1 /\
  targetListIndex s = -1 /\ targetIndex s = -1 /\
  addedPreview s = None /\
  onMousemove s = false /\ onMouseup s = false.
Proof.
  intros s Hnone.
  destruct (run_whenIdle history _ (useDragDrop_whenIdle items) Hnone)
    as (_ & Hm & Hu & Holi).
  destruct (run_atRest history _ (useDragDrop_whenIdle items)
              (useDragDrop_atRest items) Hnone) as (Hoi & Htl & Hti & Hp).
  now repeat split.
Qed.

End Listeners.

(** ** The further properties on the board *)

Section FurtherScenarios.

Import Scenario.
Local Open Scope string_scope.

(** A press on the page background, a frame over [D] and a release. *)
Lemma press_outside_handle_starts_nothing_witness :
  lists
    (run (MouseDown (HTMLElement None) 0 0
            :: tracking [(Some (el D), 0, 0)] ++ [MouseUp])
       (run [Mounted] (useDragDrop board)))
  = lists (run [Mounted] (useDragDrop board)).
Proof.
  refine (proj1 (proj2 (press_outside_handle_starts_nothing
                          board [Mounted] (HTMLElement None) 0 0
                          [(Some (el D), 0, 0)] _ _))).
  - vm_compute. reflexivity.
  - right. reflexivity.
Defined.

(** Both scans agree on where [D] is. *)
Lemma scan_records_first_match_witness :
  targetListIndex (scanTarget (Some "D") board 0 (useDragDrop board))
  = originalListIndex (scanOriginal (Some "D") board 0 (useDragDrop board)) /\
  targetIndex (scanTarget (Some "D") board 0 (useDragDrop board))
  = originalIndex (scanOriginal (Some "D") board 0 (useDragDrop board)).
Proof.
  refine (proj2 (scan_records_first_match (Some "D") board
                   (useDragDrop board) _) _).
  - exists [D; E], D. repeat split; [|constructor].
    apply list_elem_of_further, list_elem_of_here.
  - vm_compute. reflexivity.
Defined.

(** Pressing [A] on the mounted board. *)
Lemma capture_splices_found_item_witness :
  exists s' host host' it,
    dispatch (MouseDown (HTMLElement (Some (el A))) 0 0) (mounted board)
    = Normal tt s' /\
    JsArray.get (lists (mounted board)) 0 = Some host /\
    JsArray.get host 0 = Some it /\
    originalItem s' = Some it /\
    sameId (getAttribute_id (el A)) it = true /\
    JsArray.get (lists s') 0 = Some host' /\
    (forall k, 0 <= k < 0 -> JsArray.get host' k = JsArray.get host k) /\
    (forall k, 0 <= k -> JsArray.get host' k = JsArray.get host (k + 1)) /\
    (forall j, j <> 0 ->
               JsArray.get (lists s') j = JsArray.get (lists (mounted board)) j).
Proof.
  refine (capture_splices_found_item (el A) 0 0 (mounted board) 0 0 _ _ _);
    vm_compute; reflexivity.
Defined.

(** The first frame over [D] after [A] was captured. *)
Lemma resolved_frame_places_item_witness :
  exists s' host,
    handleMouseMove (Some (el D)) 0 0 captured = Normal tt s' /\
    targetListIndex s' = 1 /\ targetIndex s' = 0 /\
    addedPreview s' = Some {| Preview.list := 1; Preview.target := 0 |} /\
    JsArray.get (lists s') 1 = Some host /\
    JsArray.get host 0 = Some A.
Proof.
  refine (resolved_frame_places_item (el D) 0 0 captured A ghostA 1 0
            _ _ _ _ _).
  - vm_compute. reflexivity.
  - vm_compute. reflexivity.
  - vm_compute. exact I.
  - vm_compute. reflexivity.
  - vm_compute. reflexivity.
Defined.

(** [A] dragged over [D], off every element and over [B]. *)
Lemma tracking_conserves_items_witness :
  exists it,
    originalItem
      (run (tracking wandering)
         (step (run [Mounted] (useDragDrop board))
            (MouseDown (HTMLElement (Some (el A))) 0 0)))
    = Some it /\
    previewHolds
      (run (tracking wandering)
         (step (run [Mounted] (useDragDrop board))
            (MouseDown (HTMLElement (Some (el A))) 0 0)))
      it /\
    concat
      (lists
         (run (tracking wandering)
            (step (run [Mounted] (useDragDrop board))
               (MouseDown (HTMLElement (Some (el A))) 0 0))))
      ++ match
           addedPreview
             (run (tracking wandering)
                (step (run [Mounted] (useDragDrop board))
                   (MouseDown (HTMLElement (Some (el A))) 0 0)))
         with
         | Some _ => []
         | None => [it]
         end
    ≡ₚ concat (lists (run [Mounted] (useDragDrop board))).
Proof.
  refine (tracking_conserves_items board [Mounted] (el A) 0 0 wandering 0 0
            _ _ _ _).
  - vm_compute. reflexivity.
  - vm_compute. reflexivity.
  - vm_compute. reflexivity.
  - vm_compute. repeat split; discriminate.
Defined.

(** [A] dragged over [D], then over [E], and released there. *)
Lemma committed_drag_keeps_every_item_witness :
  concat
    (lists
       (step
          (run (tracking settling)
             (step (run [Mounted] (useDragDrop board))
                (MouseDown (HTMLElement (Some (el A))) 0 0)))
          MouseUp))
  ≡ₚ concat (lists (run [Mounted] (useDragDrop board))).
Proof.
  refine (proj1 (proj2 (committed_drag_keeps_every_item
                          board [Mounted] (el A) 0 0 settling 0 0 _ _ _ _ _))).
  - vm_compute. reflexivity.
  - vm_compute. reflexivity.
  - vm_compute. reflexivity.
  - vm_compute. repeat split; discriminate.
  - vm_compute. discriminate.
Defined.

(** With [A] previewed in front of [D], a frame over [A]'s own element. *)
Lemma frame_over_preview_changes_nothing_witness :
  exists s',
    handleMouseMove (Some (el A)) 0 0 hoveringD = Normal tt s' /\
    lists s' = lists hoveringD /\
    addedPreview s' = Some {| Preview.list := 1; Preview.target := 0 |}.
Proof.
  refine (frame_over_preview_changes_nothing (el A) 0 0 hoveringD A ghostA
            {| Preview.list := 1; Preview.target := 0 |} _ _ _ _ _ _).
  - vm_compute. reflexivity.
  - vm_compute. reflexivity.
  - vm_compute. exists [A; D; E]. split; reflexivity.
  - vm_compute. reflexivity.
  - vm_compute. reflexivity.
  - vm_compute. reflexivity.
Defined.

(** The first frame over [D]: [A] takes index [0], [D] moves to [1]. *)
Lemma hovered_item_shifts_right_witness :
  exists s' host hovered host',
    handleMouseMove (Some (el D)) 0 0 captured = Normal tt s' /\
    JsArray.get (lists captured) 1 = Some host /\
    JsArray.get host 0 = Some hovered /\
    sameId (getAttribute_id (el D)) hovered = true /\
    JsArray.get (lists s') 1 = Some host' /\
    JsArray.get host' 0 = Some A /\
    JsArray.get host' (0 + 1) = Some hovered.
Proof.
  refine (hovered_item_shifts_right (el D) 0 0 captured A ghostA 1 0
            _ _ _ _ _ _).
  - vm_compute. reflexivity.
  - vm_compute. reflexivity.
  - vm_compute. exact I.
  - vm_compute. reflexivity.
  - vm_compute. reflexivity.
  - vm_compute. exact I.
Defined.

(** The second frame over [D]: [D] is back at index [0], [A] is at [1]. *)
Lemma preview_in_front_leaves_item_behind_witness :
  exists s' host hovered host',
    handleMouseMove (Some (el D)) 0 0 hoveringD = Normal tt s' /\
    JsArray.get (lists hoveringD) 1 = Some host /\
    JsArray.get host 1 = Some hovered /\
    sameId (getAttribute_id (el D)) hovered = true /\
    JsArray.get (lists s') 1 = Some host' /\
    JsArray.get host' (1 - 1) = Some hovered /\
    JsArray.get host' 1 = Some A.
Proof.
  refine (preview_in_front_leaves_item_behind (el D) 0 0 hoveringD A ghostA
            {| Preview.list := 1; Preview.target := 0 |} 1 _ _ _ _ _ _ _).
  - vm_compute. reflexivity.
  - vm_compute. reflexivity.
  - vm_compute. exists [A; D; E]. split; reflexivity.
  - vm_compute. reflexivity.
  - vm_compute. reflexivity.
  - vm_compute. reflexivity.
  - vm_compute. reflexivity.
Defined.

(** [A] captured, then a first frame over an element without an id. *)
Lemma first_unresolved_frame_throws_witness :
  dispatch (MouseMove (Some unbound) 0 0)
    (step (run [Mounted] (useDragDrop board))
       (MouseDown (HTMLElement (Some (el A))) 0 0))
  = Throw TypeError
      (step (run [Mounted] (useDragDrop board))
         (MouseDown (HTMLElement (Some (el A))) 0 0)).
Proof.
  refine (first_unresolved_frame_throws board [Mounted] (el A) 0 0 0 0
            unbound 0 0 _ _ _ _).
  - vm_compute. reflexivity.
  - vm_compute. reflexivity.
  - vm_compute. reflexivity.
  - left. vm_compute. reflexivity.
Defined.

(** With [A] previewed, a press on the background and two releases. *)
Lemma press_outside_handle_blocks_release_witness :
  elem (step hoveringD (MouseDown (HTMLElement None) 0 0)) = None /\
  run (repeat MouseUp 2) (step hoveringD (MouseDown (HTMLElement None) 0 0))
  = step hoveringD (MouseDown (HTMLElement None) 0 0) /\
  originalItem (step hoveringD (MouseDown (HTMLElement None) 0 0)) = Some A /\
  lists (step hoveringD (MouseDown (HTMLElement None) 0 0)) = lists hoveringD /\
  onMousemove (step hoveringD (MouseDown (HTMLElement None) 0 0))
  = onMousemove hoveringD /\
  onMouseup (step hoveringD (MouseDown (HTMLElement None) 0 0))
  = onMouseup hoveringD.
Proof.
  refine (press_outside_handle_blocks_release hoveringD A 0 0 2 _ _).
  - vm_compute. reflexivity.
  - vm_compute. reflexivity.
Defined.

(** Unmounted while [A] is previewed: a frame and a release do nothing. *)
Lemma unmounted_ignores_moves_and_releases_witness :
  run [over D; MouseUp] (step hoveringD Unmounted) = step hoveringD Unmounted.
Proof.
  refine (unmounted_ignores_moves_and_releases hoveringD [over D; MouseUp] _).
  vm_compute. reflexivity.
Defined.

(** After [A] was dropped on [D]. *)
Lemma rest_state_is_clean_witness :
  originalIndex (run [Mounted; down A; over D; MouseUp] (useDragDrop board))
  = -1 /\
  originalListIndex
    (run [Mounted; down A; over D; MouseUp] (useDragDrop board)) = -1 /\
  targetListIndex
    (run [Mounted; down A; over D; MouseUp] (useDragDrop board)) = -1 /\
  targetIndex (run [Mounted; down A; over D; MouseUp] (useDragDrop board))
  = -1 /\
  addedPreview (run [Mounted; down A; over D; MouseUp] (useDragDrop board))
  = None /\
  onMousemove (run [Mounted; down A; over D; MouseUp] (useDragDrop board))
  = false /\
  onMouseup (run [Mounted; down A; over D; MouseUp] (useDragDrop board))
  = false.
Proof.
  refine (rest_state_is_clean board [Mounted; down A; over D; MouseUp] _).
  vm_compute. reflexivity.
Defined.

End FurtherScenarios.

(** ** What the handlers can throw *)

Section Exceptions.

Context {T : Type} `{IDType T}.
Implicit Types (s : State T) (items : list (list T)).

Lemma mousedown_active_ghost el x y s it :
  originalItem s = Some it ->
  exists g,
    dragging (after (mousedown (HTMLElement (Some el)) x y s)) = Some g /\
    inBody g = true.
Proof.
  intros Hit. unfold mousedown, bind, read, write, ret. simpl.
  destruct (scanOriginal_writes (getAttribute_id el) (lists s) 0
              (set_dragging (Some (cloneNode el)) (set_elem (Some el) s)))
    as (oi & oli & ->).
  simpl. rewrite Hit. simpl. eauto.
Qed.

Lemma useDragDrop_ghostReady items : ghostReady (useDragDrop items).
Proof. intros Hu. discriminate Hu. Qed.

Lemma step_ghostReady s ev :
  whenIdle s -> ghostReady s -> ghostReady (step s ev).
Proof.
  intros I G. unfold step. destruct ev as [| |tgt x y|hit x y|]; simpl.
  - exact G.
  - intros Hu. discriminate Hu.
  - unfold dispatch, bind, read, ret. simpl.
    destruct (onMousedown s); [|exact G].
    destruct tgt as [|[el|]]; [exact G| |exact G].
    destruct (originalItem s) as [it|] eqn:Ho.
    + intros _. now apply (mousedown_active_ghost el x y s it).
    + destruct (I Ho) as (_ & _ & Iu & Ii).
      pose proof (mousedown_nothing_detached el x y s Ho Ii) as M.
      destruct (mousedown (HTMLElement (Some el)) x y s) as [[] s'|e s'];
        simpl.
      * intros _. now destruct M as (_ & _ & Hg & _).
      * destruct M as (_ & _ & _ & _ & _ & Hu & _). intros Hu'. congruence.
  - pose proof (step_move_kept hit x y s) as (_ & _ & Kg & _ & _ & _ & Ku).
    intros Hu. change (onMouseup (step s (MouseMove hit x y)) = true) in Hu.
    change (exists g, dragging (step s (MouseMove hit x y)) = Some g /\
                      inBody g = true).
    rewrite Kg. apply G. congruence.
  - unfold dispatch, bind, read, ret. simpl.
    destruct (onMouseup s) eqn:Eu; [|exact G].
    destruct (handleMouseUp_resets s)
      as [->|(_ & _ & _ & _ & _ & _ & _ & _ & Hu)]; [exact G|].
    intros Hu'. congruence.
Qed.

Lemma run_ghostReady evs s :
  whenIdle s -> ghostReady s -> ghostReady (run evs s).
Proof.
  revert s. induction evs as [|ev evs IH]; intros s I G; simpl; [exact G|].
  apply IH; [now apply step_whenIdle|now apply step_ghostReady].
Qed.

(** X14: in every state the composable reaches, a pointer-down either
    returns normally or throws a [TypeError], and it throws only when
    nothing is detached and the target is a drag handle whose id no item
    of any list carries; [JSON.parse] is never handed [undefined]. *)
Theorem pointer_down_throws_only_on_unknown_id items history tgt x y :
  let s := run history (useDragDrop items) in
  (exists s', dispatch (MouseDown tgt x y) s = Normal tt s') \/
  (exists el s',
      tgt = HTMLElement (Some el) /\ originalItem s = None /\
      (forall l f, l ∈ lists s -> f ∈ l ->
                   sameId (getAttribute_id el) f = false) /\
      dispatch (MouseDown tgt x y) s = Throw TypeError s').
Proof.
  intros s.
  pose proof (run_whenIdle history _ (useDragDrop_whenIdle items)) as I.
  fold s in I.
  unfold dispatch, bind, read, ret. simpl.
  destruct (onMousedown s); [|left; eauto].
  destruct (originalItem s) as [it|] eqn:Ho.
  - left. destruct (mousedown_active tgt x y s it Ho) as (s' & E & _). eauto.
  - destruct (I Ho) as (_ & _ & _ & Ii).
    destruct tgt as [|[el|]].
    + left. unfold mousedown, ret. eauto.
    + destruct (locate (getAttribute_id el) (lists s)) as [[li oi]|] eqn:Hloc.
      * left. destruct (mousedown_captures el x y s li oi Ho Hloc)
          as (host & it & s' & _ & _ & E & _). eauto.
      * right. destruct (mousedown_unknown el x y s Ho Ii Hloc)
          as (s' & E & _).
        exists el, s'. repeat split; try assumption.
        now apply locate_none.
    + left. unfold mousedown, bind, write, ret. simpl. eauto.
Qed.

(** X15: in every state the composable reaches, a release returns
    normally: whenever [handleMouseUp] is attached and gets past its guard,
    the ghost it removes is a child of the body. *)
Theorem release_never_throws items history :
  exists s',
    dispatch MouseUp (run history (useDragDrop items)) = Normal tt s'.
Proof.
  set (s := run history (useDragDrop items)).
  pose proof (run_ghostReady history _ (useDragDrop_whenIdle items)
                (useDragDrop_ghostReady items)) as G.
  fold s in G.
  unfold dispatch, bind, read, ret. simpl.
  destruct (onMouseup s) eqn:Eu; [|eauto].
  destruct (G Eu) as (g & Hg & Hin).
  unfold handleMouseUp, bind, read, write, ret, removeChild. simpl.
  rewrite Hg. destruct (elem s) as [e|]; [|eauto].
  rewrite Hin. simpl. destruct (targetIndex s =? -1); simpl; eauto.
Qed.

End Exceptions.

(** ** A frame that resolves nothing, with a live target *)

Section StaleTarget.

Context {T : Type} `{IDType T}.
Implicit Types (s : State T) (items : list (list T)).

(** X16: a frame over an element without an id, or with an id no list
    holds, is not skipped but runs the preview update with the target
    indices as they stand.  In a session whose preview record points at
    the detached item, while the target indices still equal that record,
    the update takes the item out and puts it back: the frame returns
    normally and leaves the collection and the preview record
    unchanged. *)
Theorem unresolved_frame_with_live_target_changes_nothing
  tgt x y s it g p :
  dragging s = Some g -> originalItem s = Some it ->
  previewHolds s it -> addedPreview s = Some p ->
  targetListIndex s = Preview.list p -> targetIndex s = Preview.target p ->
  noId (getAttribute_id tgt) = true \/
  locate (getAttribute_id tgt) (lists s) = None ->
  exists s',
    handleMouseMove (Some tgt) x y s = Normal tt s' /\
    lists s' = lists s /\ addedPreview s' = Some p.
Proof.
  intros Hg Hit Hprev Hp Htl Hti Hun. destruct p as [pl pt]. simpl in *.
  unfold previewHolds in Hprev. rewrite Hp in Hprev. simpl in Hprev.
  destruct Hprev as (host & Hh & Hx).
  assert (Es : scanTarget (getAttribute_id tgt) (lists s) 0 s = s).
  { rewrite scanTarget_locate. fold (locate (getAttribute_id tgt) (lists s)).
    destruct Hun as [-> | ->]; [reflexivity|].
    now destruct (noId (getAttribute_id tgt)). }
  unfold handleMouseMove, bind, read, write, ret. rewrite Hg, Es, Hp.
  unfold spliceList, bind, read, defined, write, ret. simpl.
  rewrite Hh. simpl. rewrite Hit, Htl, Hti.
  cbn [lists set_lists]. rewrite (get_set_eq _ _ _ _ Hh). simpl.
  eexists. split; [reflexivity|]. simpl. split; [|reflexivity].
  rewrite set_set, (splice_delete_insert host pt it Hx).
  now apply set_same.
Qed.

End StaleTarget.

Section StaleTargetScenario.

Import Scenario.
Local Open Scope string_scope.

(** With [A] previewed in front of [D], a frame over an element bound to
    ["Z"]. *)
Lemma unresolved_frame_with_live_target_changes_nothing_witness :
  exists s',
    handleMouseMove (Some foreign) 0 0 hoveringD = Normal tt s' /\
    lists s' = lists hoveringD /\
    addedPreview s' = Some {| Preview.list := 1; Preview.target := 0 |}.
Proof.
  refine (unresolved_frame_with_live_target_changes_nothing
            foreign 0 0 hoveringD A ghostA
            {| Preview.list := 1; Preview.target := 0 |} _ _ _ _ _ _ _).
  - vm_compute. reflexivity.
  - vm_compute. reflexivity.
  - vm_compute. exists [A; D; E]. split; reflexivity.
  - vm_compute. reflexivity.
  - vm_compute. reflexivity.
  - vm_compute. reflexivity.
  - right. vm_compute. reflexivity.
Defined.

End StaleTargetScenario.
